(** * clickup-sdk: webhook filters and broker message formatters

    A shallow embedding of
    - [src/clickup_sdk/webhook/filters.py] (the filter predicates), and
    - [src/clickup/savdo/when_broker_set/components.py] (the value formatters),
    with the Python values they inspect, and the properties of the
    specification stated over that embedding.

    Python raises exceptions; every embedded function that can raise returns
    a [result].  [async def check] never suspends, so [await f.check(e)] is
    an ordinary call.  Logging is not modelled. *)

From Stdlib Require Import ZArith List String Ascii Bool Lia DecimalString.
From Stdlib Require DecimalPos DecimalZ.
Import ListNotations.
Local Open Scope string_scope.
Local Open Scope Z_scope.
Set Warnings "-register-all".

(** ** Exceptions and the error monad *)

Inductive exn : Type :=
  | ValueError
  | TypeError
  | AttributeError
  | OverflowError
  | ZeroDivisionError
  | OSError.

Inductive result (A : Type) : Type :=
  | Ok (a : A)
  | Raise (e : exn).
Arguments Ok {A} a.
Arguments Raise {A} e.

Definition bind {A B : Type} (m : result A) (k : A -> result B) : result B :=
  match m with
  | Ok a => k a
  | Raise e => Raise e
  end.

Notation "x <- m ;; k" := (bind m (fun x => k))
  (at level 61, m at next level, right associativity).

(** [returns m]: the call came back with a value instead of raising. *)
Definition returns {A : Type} (m : result A) : Prop := exists a, m = Ok a.

(** ** Python values

    The values a decoded JSON payload or a custom field can hold.  A [str]
    is modelled by the Rocq string of its UTF-8 bytes.  Equality and
    [in] on strs are then equality and containment of the bytes.  [lower],
    [upper] and [int] are modelled on ASCII text, where they fold the
    letters A-Z and a-z and read the digits 0-9: the statements that rest
    on them ask for ASCII text ([is_ascii]).  Integers are unbounded, and
    the cap of 4300 digits that the interpreter puts on conversions between
    [int] and [str] is modelled where an integer argument meets it, in
    [int_of_str], [int_str_checked], and [str_checked]; the integers of a
    webhook payload are decoded from JSON text and so are within the cap,
    and [py_str] on them is the plain conversion.  A float is given by
    what the code can observe of it: its class, for a finite float its exact
    value [(-1)^neg * m * 2^e], and its [repr] text (the shortest decimal
    that reads back to the same float; computing it is left out, so the
    text is carried with the value and every statement holds whatever the
    text is). *)

Inductive pyfloat : Type :=
  | FNan
  | FInf (neg : bool)
  | FFinite (neg : bool) (m : N) (e : Z) (repr : string).

Inductive pyval : Type :=
  | PNone
  | PBool (b : bool)
  | PInt (z : Z)
  | PFloat (f : pyfloat)
  | PStr (s : string)
  | PList (l : list pyval)
  | PDict (d : list (string * pyval)).

(** Python truthiness, as [if x:], [not x], [x and y], [x or y] use it. *)
Definition truthy (v : pyval) : bool :=
  match v with
  | PNone => false
  | PBool b => b
  | PInt z => negb (z =? 0)
  | PFloat (FFinite _ m _ _) => negb (m =? 0)%N
  | PFloat _ => true
  | PStr s => negb (s =? "")%string
  | PList l => match l with [] => false | _ => true end
  | PDict d => match d with [] => false | _ => true end
  end.

(** [x or y] on values. *)
Definition py_or (x y : pyval) : pyval := if truthy x then x else y.

(** A JSON object keeps its keys in insertion order; lookup takes the
    first binding of the key. *)
Fixpoint lookup (key : string) (d : list (string * pyval)) : option pyval :=
  match d with
  | [] => None
  | (k, v) :: rest => if (k =? key)%string then Some v else lookup key rest
  end.

(** [d.get(key, default)] on a dict. *)
Definition dict_get (d : list (string * pyval)) (key : string) (default : pyval) : pyval :=
  match lookup key d with
  | Some v => v
  | None => default
  end.

(** [o.get(key, default)] on any object: only a dict has the method. *)
Definition py_get (o : pyval) (key : string) (default : pyval) : result pyval :=
  match o with
  | PDict d => Ok (dict_get d key default)
  | _ => Raise AttributeError
  end.

Definition isinstance_dict (v : pyval) : bool :=
  match v with PDict _ => true | _ => false end.

Definition isinstance_list (v : pyval) : bool :=
  match v with PList _ => true | _ => false end.

(** ** Strings *)

Definition is_upper (c : ascii) : bool :=
  let n := nat_of_ascii c in (Nat.leb 65 n && Nat.leb n 90)%bool.

Definition is_lower (c : ascii) : bool :=
  let n := nat_of_ascii c in (Nat.leb 97 n && Nat.leb n 122)%bool.

Definition lower_char (c : ascii) : ascii :=
  if is_upper c then ascii_of_nat (nat_of_ascii c + 32) else c.

Definition upper_char (c : ascii) : ascii :=
  if is_lower c then ascii_of_nat (nat_of_ascii c - 32) else c.

Fixpoint map_string (f : ascii -> ascii) (s : string) : string :=
  match s with
  | EmptyString => EmptyString
  | String c rest => String (f c) (map_string f rest)
  end.

(** [s.lower()] and [s.upper()]. *)
Definition lower (s : string) : string := map_string lower_char s.
Definition upper (s : string) : string := map_string upper_char s.

(** [x.lower()] on any object: only a str has the method. *)
Definition py_lower (v : pyval) : result string :=
  match v with
  | PStr s => Ok (lower s)
  | _ => Raise AttributeError
  end.

(** [needle in hay] on strings. *)
Fixpoint contains (needle hay : string) : bool :=
  if prefix needle hay then true
  else match hay with
       | EmptyString => false
       | String _ rest => contains needle rest
       end.

(** [s.replace(old, new)] for a one-character [old]. *)
Fixpoint replace_char (old : ascii) (new : string) (s : string) : string :=
  match s with
  | EmptyString => EmptyString
  | String c rest =>
      if Ascii.eqb c old then new ++ replace_char old new rest
      else String c (replace_char old new rest)
  end.

Fixpoint mem_char (c : ascii) (s : string) : bool :=
  match s with
  | EmptyString => false
  | String c' rest => (Ascii.eqb c c' || mem_char c rest)%bool
  end.

(** [str(n)] of an integer. *)
Definition int_str (z : Z) : string := NilZero.string_of_int (Z.to_int z).

Definition hex_digit (n : nat) : ascii :=
  if Nat.ltb n 10 then ascii_of_nat (48 + n) else ascii_of_nat (87 + n).

Definition backslash : ascii := ascii_of_nat 92.
Definition squote : ascii := ascii_of_nat 39.
Definition dquote : ascii := ascii_of_nat 34.

(** One character of [repr(s)] between the chosen quotes. *)
Definition repr_char (quote : ascii) (c : ascii) : string :=
  let n := nat_of_ascii c in
  if (Ascii.eqb c quote || Ascii.eqb c backslash)%bool then String backslash (String c "")
  else if Nat.eqb n 9 then String backslash "t"
  else if Nat.eqb n 10 then String backslash "n"
  else if Nat.eqb n 13 then String backslash "r"
  else if (Nat.ltb n 32 || Nat.eqb n 127)%bool then
    String backslash
      (String "x" (String (hex_digit (n / 16)) (String (hex_digit (n mod 16)) "")))
  else String c "".

Fixpoint repr_chars (quote : ascii) (s : string) : string :=
  match s with
  | EmptyString => EmptyString
  | String c rest => repr_char quote c ++ repr_chars quote rest
  end.

(** [repr(s)] of a str: single quotes, unless the text has a single quote
    and no double quote. *)
Definition str_repr (s : string) : string :=
  let quote := if (mem_char squote s && negb (mem_char dquote s))%bool then dquote else squote in
  String quote (repr_chars quote s ++ String quote "").

Definition float_repr (f : pyfloat) : string :=
  match f with
  | FNan => "nan"
  | FInf false => "inf"
  | FInf true => "-inf"
  | FFinite _ _ _ repr => repr
  end.

(** [repr(v)]. *)
Fixpoint py_repr (v : pyval) : string :=
  match v with
  | PNone => "None"
  | PBool true => "True"
  | PBool false => "False"
  | PInt z => int_str z
  | PFloat f => float_repr f
  | PStr s => str_repr s
  | PList l =>
      "[" ++ (fix items (l : list pyval) : string :=
                match l with
                | [] => ""
                | x :: rest =>
                    py_repr x ++ match rest with [] => "" | _ => ", " ++ items rest end
                end) l ++ "]"
  | PDict d =>
      "{" ++ (fix items (d : list (string * pyval)) : string :=
                match d with
                | [] => ""
                | (k, x) :: rest =>
                    str_repr k ++ ": " ++ py_repr x
                    ++ match rest with [] => "" | _ => ", " ++ items rest end
                end) d ++ "}"
  end.

(** [str(v)]: a str is itself, anything else its [repr]. *)
Definition py_str (v : pyval) : string :=
  match v with
  | PStr s => s
  | _ => py_repr v
  end.

(** ** Integer coercion: [int(v)] *)

(** The most digits a conversion between [int] and [str] takes. *)
Definition MAX_STR_DIGITS : nat := 4300.

(** Characters [int] skips around the digits of an ASCII str. *)
Definition is_space (c : ascii) : bool :=
  let n := nat_of_ascii c in
  ((Nat.leb 9 n && Nat.leb n 13) || Nat.eqb n 32)%bool.

Fixpoint lstrip (s : string) : string :=
  match s with
  | EmptyString => EmptyString
  | String c rest => if is_space c then lstrip rest else s
  end.

Fixpoint rstrip (s : string) : string :=
  match s with
  | EmptyString => EmptyString
  | String c rest =>
      match rstrip rest with
      | EmptyString => if is_space c then EmptyString else String c EmptyString
      | rest' => String c rest'
      end
  end.

Definition strip (s : string) : string := rstrip (lstrip s).

Definition digit_val (c : ascii) : option Z :=
  let n := nat_of_ascii c in
  if (Nat.leb 48 n && Nat.leb n 57)%bool then Some (Z.of_nat (n - 48)) else None.

(** Decimal digits, with single underscores allowed between two digits.
    [prev] tells whether the previous character was a digit. *)
Fixpoint parse_digits (s : string) (acc : Z) (prev : bool) : option Z :=
  match s with
  | EmptyString => if prev then Some acc else None
  | String c rest =>
      if Ascii.eqb c "_" then (if prev then parse_digits rest acc false else None)
      else match digit_val c with
           | Some d => parse_digits rest (10 * acc + d) true
           | None => None
           end
  end.

Fixpoint count_digits (s : string) : nat :=
  match s with
  | EmptyString => O
  | String c rest =>
      match digit_val c with
      | Some _ => S (count_digits rest)
      | None => count_digits rest
      end
  end.

(** [int(s)] of a str, base ten: surrounding white space, an optional
    sign, digits, no more of them than [MAX_STR_DIGITS]. *)
Definition int_of_str (s : string) : result Z :=
  let parsed :=
    match strip s with
    | String "+" rest => parse_digits rest 0 false
    | String "-" rest => option_map Z.opp (parse_digits rest 0 false)
    | t => parse_digits t 0 false
    end in
  match parsed with
  | Some z => if Nat.ltb MAX_STR_DIGITS (count_digits (strip s)) then Raise ValueError
              else Ok z
  | None => Raise ValueError
  end.

(** [int(f)] of a float: truncation toward zero. *)
Definition int_of_float (f : pyfloat) : result Z :=
  match f with
  | FNan => Raise ValueError
  | FInf _ => Raise OverflowError
  | FFinite neg m e _ =>
      let mag := if 0 <=? e then Z.of_N m * 2 ^ e else Z.of_N m / 2 ^ (- e) in
      Ok (if neg then - mag else mag)
  end.

Definition py_int (v : pyval) : result Z :=
  match v with
  | PNone => Raise TypeError
  | PBool b => Ok (if b then 1 else 0)
  | PInt z => Ok z
  | PFloat f => int_of_float f
  | PStr s => int_of_str s
  | PList _ => Raise TypeError
  | PDict _ => Raise TypeError
  end.

(** [try: body except (kinds): handler] *)
Definition try_except {A : Type} (body : result A) (caught : exn -> bool)
    (handler : result A) : result A :=
  match body with
  | Ok a => Ok a
  | Raise e => if caught e then handler else Raise e
  end.

(** ** components.py: the value formatters *)

Definition DEFAULT_VALUE : string := "N/A".
Definition CURRENCY_SUFFIX : string := " UZS".
Definition NUMBER_SUFFIX : string := " ta".
Definition DATE_FORMAT : string := "%d.%m.%Y".
Definition MILLISECONDS_TO_SECONDS : Z := 1000.

(** Digits in groups of three from the right, [sep] between the groups. *)
Fixpoint insert_sep (sep : string) (digits : string) : string :=
  match digits with
  | EmptyString => EmptyString
  | String c rest =>
      String c (if (Nat.ltb 0 (String.length rest)
                    && Nat.eqb (String.length rest mod 3) 0)%bool
                then sep ++ insert_sep sep rest
                else insert_sep sep rest)
  end.

Definition grouped (sep : string) (num : Z) : string :=
  if num <? 0 then "-" ++ insert_sep sep (int_str (- num))
  else insert_sep sep (int_str num).

(** [f"{num:,}"] *)
Definition format_comma (num : Z) : string := grouped "," num.

(** The number of decimal digits of an integer, and whether they are more
    than a conversion to [str] takes. *)
Definition digits_of (z : Z) : nat := String.length (int_str (Z.abs z)).

Definition beyond_cap_int (z : Z) : bool := Nat.ltb MAX_STR_DIGITS (digits_of z).

(** [str(z)] and [f"{z:,}"] of an integer, with the cap. *)
Definition int_str_checked (z : Z) : result string :=
  if beyond_cap_int z then Raise ValueError else Ok (int_str z).

Definition format_comma_checked (num : Z) : result string :=
  if beyond_cap_int num then Raise ValueError else Ok (format_comma num).

(** The value holds an integer beyond the cap, itself or in a container. *)
Fixpoint beyond_cap (v : pyval) : bool :=
  match v with
  | PInt z => beyond_cap_int z
  | PList l => existsb beyond_cap l
  | PDict d => existsb (fun kv => beyond_cap (snd kv)) d
  | _ => false
  end.

(** [str(v)], with the cap. *)
Definition str_checked (v : pyval) : result string :=
  if beyond_cap v then Raise ValueError else Ok (py_str v).

Definition value_or_type_error (e : exn) : bool :=
  match e with ValueError | TypeError => true | _ => false end.

Definition format_currency (value : pyval) : result string :=
  if negb (truthy value) then Ok DEFAULT_VALUE
  else
    try_except
      (num <- py_int value ;;
       text <- format_comma_checked num ;;
       Ok (replace_char "," " " text ++ CURRENCY_SUFFIX))
      value_or_type_error
      (str_checked value).

Definition format_number (value : pyval) : result string :=
  if negb (truthy value) then Ok DEFAULT_VALUE
  else
    try_except
      (num <- py_int value ;;
       text <- int_str_checked num ;;
       Ok (text ++ NUMBER_SUFFIX))
      value_or_type_error
      (str_checked value).

(** The value [get_relationship_name] hands back is whatever the mapping
    stores under "name", so the result is a value, not a string. *)
Definition get_relationship_name (custom_field_value : pyval) : pyval :=
  if negb (truthy custom_field_value) then PStr DEFAULT_VALUE
  else
    match custom_field_value with
    | PList l =>
        match l with
        | first_item :: _ =>
            match first_item with
            | PDict d => dict_get d "name" (PStr DEFAULT_VALUE)
            | _ => PStr (py_str first_item)
            end
        | [] => PStr DEFAULT_VALUE
        end
    | PDict d => dict_get d "name" (PStr DEFAULT_VALUE)
    | _ => PStr (py_str custom_field_value)
    end.

(** [a / b] on integers is a float: the quotient rounded to nearest, and
    [OverflowError] when that is beyond the largest double.  The float is
    kept as the exact fraction it rounds. *)
Definition py_truediv (a b : Z) : result (Z * Z) :=
  if b =? 0 then Raise ZeroDivisionError
  else if Z.abs b * (2 ^ 1024 - 2 ^ 970) <=? Z.abs a then Raise OverflowError
  else Ok (a, b).

Definition isinstance_int_or_str (v : pyval) : bool :=
  match v with PBool _ | PInt _ | PStr _ => true | _ => false end.

Definition value_type_or_os_error (e : exn) : bool :=
  match e with ValueError | TypeError | OSError => true | _ => false end.

Section Deadline.

(** [datetime.fromtimestamp(timestamp).strftime(fmt)]: the local calendar
    date of a time stamp, which depends on the time zone and the platform
    of the deployment. *)
Variable fromtimestamp_strftime : Z * Z -> string -> result string.

Definition format_deadline (deadline : pyval) : result string :=
  if negb (truthy deadline) then Ok DEFAULT_VALUE
  else
    try_except
      (if isinstance_int_or_str deadline then
         n <- py_int deadline ;;
         timestamp <- py_truediv n MILLISECONDS_TO_SECONDS ;;
         fromtimestamp_strftime timestamp DATE_FORMAT
       else Ok (py_str deadline))
      value_type_or_os_error
      (Ok (py_str deadline)).

End Deadline.

(** ** The webhook event *)

(** Modelled from the spec: [events.py], which declares [WebhookEvent], is
    not among the sources.  The event exposes its type tag [event], its
    [task_id], and [history_items], an ordered sequence of change records
    that may be absent ([None]); each record is a loosely-typed value. *)
Record WebhookEvent : Type := {
  event : string;
  task_id : string;
  history_items : option (list pyval)
}.

(** [not event.history_items]: absent or empty. *)
Definition no_history (e : WebhookEvent) : bool :=
  match history_items e with
  | None => true
  | Some [] => true
  | Some (_ :: _) => false
  end.

Definition items_of (e : WebhookEvent) : list pyval :=
  match history_items e with
  | None => []
  | Some items => items
  end.

(** [for item in items: ... return True ... ; return False]: the body
    answers [true] to return [True] at once, [false] to go on. *)
Fixpoint for_items (body : pyval -> result bool) (items : list pyval) : result bool :=
  match items with
  | [] => Ok false
  | item :: rest =>
      hit <- body item ;;
      if hit then Ok true else for_items body rest
  end.

(** An optional str argument that is set and not empty ([if self.x:]). *)
Definition supplied (o : option string) : bool :=
  match o with
  | Some s => negb (s =? "")%string
  | None => false
  end.

Definition arg (o : option string) : string :=
  match o with Some s => s | None => "" end.

(** [v == s] for a str [s]. *)
Definition eq_str (v : pyval) (s : string) : bool :=
  match v with
  | PStr t => (t =? s)%string
  | _ => false
  end.

(** ** filters.py *)

(** The interface [Filter]: one method, [check]. *)
Class Filter (A : Type) : Type := check : A -> WebhookEvent -> result bool.

(** *** CustomFieldFilter *)

Module CustomFieldFilter.

Record t : Type := {
  field_id : option string;
  field_name : option string
}.

(** [__init__] *)
Definition init (field_id field_name : option string) : result t :=
  if (negb (supplied field_id) && negb (supplied field_name))%bool then Raise ValueError
  else Ok {| field_id := field_id; field_name := field_name |}.

(** The part of the loop body under [if self.field_id:], for the field
    id [fid] of the filter. *)
Definition match_id (fid : string) (item field field_id : pyval) : result bool :=
  if (truthy field_id && (py_str field_id =? fid)%string)%bool then Ok true
  else if (truthy field && contains fid (py_str field))%bool then Ok true
  else
    after <- py_get item "after" (PDict []) ;;
    before <- py_get item "before" (PDict []) ;;
    hit_after <-
      (if isinstance_dict after then
         a_id <- py_get after "id" PNone ;;
         a_fid <- py_get after "field_id" PNone ;;
         Ok (eq_str a_id fid || eq_str a_fid fid)%bool
       else Ok false) ;;
    if hit_after then Ok true
    else if isinstance_dict before then
      b_id <- py_get before "id" PNone ;;
      b_fid <- py_get before "field_id" PNone ;;
      Ok (eq_str b_id fid || eq_str b_fid fid)%bool
    else Ok false.

(** [d.get("name") and self.field_name.lower() in d.get("name", "").lower()]
    for the field name [name] of the filter. *)
Definition name_in (name : string) (d : pyval) : result bool :=
  stored <- py_get d "name" PNone ;;
  if truthy stored then
    stored' <- py_get d "name" (PStr "") ;;
    low <- py_lower stored' ;;
    Ok (contains (lower name) low)
  else Ok false.

(** The part of the loop body under [if self.field_name:]. *)
Definition match_name (name : string) (item field : pyval) : result bool :=
  hit <- (if truthy field then
            low <- py_lower field ;;
            Ok (contains (lower name) low)
          else Ok false) ;;
  if hit then Ok true
  else
    after <- py_get item "after" (PDict []) ;;
    before <- py_get item "before" (PDict []) ;;
    hit_after <- (if isinstance_dict after then name_in name after else Ok false) ;;
    if hit_after then Ok true
    else if isinstance_dict before then name_in name before else Ok false.

(** The loop body of [check]. *)
Definition body (self : t) (item : pyval) : result bool :=
  let self_field_id := field_id self in
  let self_field_name := field_name self in
  field <- py_get item "field" (PStr "") ;;
  fid <- py_get item "field_id" PNone ;;
  id <- py_get item "id" PNone ;;
  let field_id := py_or fid id in
  hit <- (if supplied self_field_id
          then match_id (arg self_field_id) item field field_id
          else Ok false) ;;
  if hit then Ok true
  else if supplied self_field_name
       then match_name (arg self_field_name) item field
       else Ok false.

Definition check (self : t) (e : WebhookEvent) : result bool :=
  if negb (event e =? "taskUpdated")%string then Ok false
  else if no_history e then Ok false
  else for_items (body self) (items_of e).

End CustomFieldFilter.

#[export] Instance CustomFieldFilter_Filter : Filter CustomFieldFilter.t :=
  CustomFieldFilter.check.

(** *** TaskStatusFilter *)

Module TaskStatusFilter.

Record t : Type := {
  from_status : option string;
  to_status : option string
}.

(** [x.get("status", {}).get("status", "") if isinstance(x, dict) else ""] *)
Definition status_of (x : pyval) : result pyval :=
  if isinstance_dict x then
    inner <- py_get x "status" (PDict []) ;;
    py_get inner "status" (PStr "")
  else Ok (PStr "").

(** [self.c and status.lower() != self.c.lower()]: the constraint [c] is
    set and the status differs from it. *)
Definition differs (c : option string) (status : pyval) : result bool :=
  if supplied c then
    low <- py_lower status ;;
    Ok (negb (low =? lower (arg c))%string)
  else Ok false.

(** The loop body of [check]: [false] is [continue]. *)
Definition body (self : t) (item : pyval) : result bool :=
  before <- py_get item "before" (PDict []) ;;
  after <- py_get item "after" (PDict []) ;;
  old_status <- status_of before ;;
  new_status <- status_of after ;;
  skip_from <- differs (from_status self) old_status ;;
  if skip_from then Ok false
  else
    skip_to <- differs (to_status self) new_status ;;
    if skip_to then Ok false else Ok true.

Definition check (self : t) (e : WebhookEvent) : result bool :=
  if negb (event e =? "taskStatusUpdated")%string then Ok false
  else if no_history e then Ok false
  else for_items (body self) (items_of e).

End TaskStatusFilter.

#[export] Instance TaskStatusFilter_Filter : Filter TaskStatusFilter.t :=
  TaskStatusFilter.check.

(** *** TaskAssigneeFilter *)

Module TaskAssigneeFilter.

Record t : Type := { user_id : option string }.

(** The body of the inner loop over [assignees]. *)
Definition assignee_body (uid : string) (assignee : pyval) : result bool :=
  hit <- (if isinstance_dict assignee then
            a_id <- py_get assignee "id" PNone ;;
            Ok (eq_str a_id uid)
          else Ok false) ;;
  if hit then Ok true else Ok (eq_str assignee uid).

(** The loop body of [check]. *)
Definition body (uid : string) (item : pyval) : result bool :=
  after <- py_get item "after" (PDict []) ;;
  if isinstance_dict after then
    assignees <- py_get after "assignees" (PList []) ;;
    match assignees with
    | PList l => for_items (assignee_body uid) l
    | _ => Ok false
    end
  else Ok false.

Definition check (self : t) (e : WebhookEvent) : result bool :=
  if negb (event e =? "taskAssigneeUpdated")%string then Ok false
  else if negb (supplied (user_id self)) then Ok true
  else if no_history e then Ok false
  else for_items (body (arg (user_id self))) (items_of e).

End TaskAssigneeFilter.

#[export] Instance TaskAssigneeFilter_Filter : Filter TaskAssigneeFilter.t :=
  TaskAssigneeFilter.check.

(** *** EventTypeFilter *)

Definition in_strings (s : string) (l : list string) : bool :=
  existsb (fun t => (s =? t)%string) l.

Module EventTypeFilter.

Record t : Type := { event_types : list string }.

(** [__init__] *)
Definition init (types : list string) : t := {| event_types := map lower types |}.

Definition check (self : t) (e : WebhookEvent) : result bool :=
  Ok (in_strings (lower (event e)) (event_types self)).

End EventTypeFilter.

#[export] Instance EventTypeFilter_Filter : Filter EventTypeFilter.t :=
  EventTypeFilter.check.

(** *** CombinedFilter *)

(** A child of a combinator is any object with a [check] method. *)
Record filter_obj : Type := { obj_check : WebhookEvent -> result bool }.

Definition as_obj {A : Type} `{Filter A} (a : A) : filter_obj :=
  {| obj_check := check a |}.

Definition all (results : list bool) : bool := forallb (fun b => b) results.
Definition any (results : list bool) : bool := existsb (fun b => b) results.

Module CombinedFilter.

Record t : Type := {
  filters : list filter_obj;
  logic : string
}.

(** [__init__] *)
Definition init (children : list filter_obj) (mode : string) : result t :=
  let self := {| filters := children; logic := upper mode |} in
  if negb (in_strings (logic self) ["AND"; "OR"]) then Raise ValueError
  else Ok self.

(** [for filter_obj in self.filters: results.append(await filter_obj.check(event))] *)
Fixpoint gather (children : list filter_obj) (e : WebhookEvent) (results : list bool)
    : result (list bool) :=
  match children with
  | [] => Ok results
  | filter_obj :: rest =>
      r <- obj_check filter_obj e ;;
      gather rest e (results ++ [r])
  end.

Definition check (self : t) (e : WebhookEvent) : result bool :=
  match filters self with
  | [] => Ok true
  | _ =>
      results <- gather (filters self) e [] ;;
      if (logic self =? "AND")%string then Ok (all results) else Ok (any results)
  end.

End CombinedFilter.

#[export] Instance CombinedFilter_Filter : Filter CombinedFilter.t :=
  CombinedFilter.check.

(** The convenience constructors. *)
Definition custom_field_changed (field_id field_name : option string)
    : result CustomFieldFilter.t :=
  CustomFieldFilter.init field_id field_name.

Definition status_changed (from_status to_status : option string) : TaskStatusFilter.t :=
  {| TaskStatusFilter.from_status := from_status; TaskStatusFilter.to_status := to_status |}.

Definition assignee_changed (user_id : option string) : TaskAssigneeFilter.t :=
  {| TaskAssigneeFilter.user_id := user_id |}.

(** ** The match strategies of the field filter, as conditions on one item

    [effective_id] is the id the filter compares: the item's "field_id"
    when that is truthy, its "id" otherwise. *)

Definition dict := list (string * pyval).

Definition effective_id (d : dict) : pyval :=
  py_or (dict_get d "field_id" PNone) (dict_get d "id" PNone).

Definition label (d : dict) : pyval := dict_get d "field" (PStr "").

Definition strategy1 (fid : string) (d : dict) : bool :=
  (truthy (effective_id d) && (py_str (effective_id d) =? fid)%string)%bool.

Definition strategy2 (fid : string) (d : dict) : bool :=
  (truthy (label d) && contains fid (py_str (label d)))%bool.

Definition nested_has_id (fid : string) (v : pyval) : bool :=
  match v with
  | PDict n => (eq_str (dict_get n "id" PNone) fid
                || eq_str (dict_get n "field_id" PNone) fid)%bool
  | _ => false
  end.

Definition strategy3 (fid : string) (d : dict) : bool :=
  (nested_has_id fid (dict_get d "after" (PDict []))
   || nested_has_id fid (dict_get d "before" (PDict [])))%bool.

(** [name] occurs in the text [v], ignoring case; [v] not empty. *)
Definition name_within (name : string) (v : pyval) : bool :=
  match v with
  | PStr s => (negb (s =? "")%string && contains (lower name) (lower s))%bool
  | _ => false
  end.

Definition strategy4 (name : string) (d : dict) : bool := name_within name (label d).

Definition nested_has_name (name : string) (v : pyval) : bool :=
  match v with
  | PDict n => name_within name (dict_get n "name" PNone)
  | _ => false
  end.

Definition strategy5 (name : string) (d : dict) : bool :=
  (nested_has_name name (dict_get d "after" (PDict []))
   || nested_has_name name (dict_get d "before" (PDict [])))%bool.

Definition id_strategies (self : CustomFieldFilter.t) (d : dict) : bool :=
  let fid := arg (CustomFieldFilter.field_id self) in
  (supplied (CustomFieldFilter.field_id self)
   && (strategy1 fid d || strategy2 fid d || strategy3 fid d))%bool.

Definition name_strategies (self : CustomFieldFilter.t) (d : dict) : bool :=
  let name := arg (CustomFieldFilter.field_name self) in
  (supplied (CustomFieldFilter.field_name self) && (strategy4 name d || strategy5 name d))%bool.

Definition item_matches (self : CustomFieldFilter.t) (item : pyval) : bool :=
  match item with
  | PDict d => (id_strategies self d || name_strategies self d)%bool
  | _ => false
  end.

(** The shape on which no strategy raises: the item is a mapping, its
    field label is a str or falsy, and so is the "name" of a nested
    "after" or "before" mapping. *)
Definition str_or_falsy (v : pyval) : bool :=
  match v with
  | PStr _ => true
  | _ => negb (truthy v)
  end.

Definition nested_name_ok (v : pyval) : bool :=
  match v with
  | PDict n => str_or_falsy (dict_get n "name" PNone)
  | _ => true
  end.

Definition well_shaped (item : pyval) : bool :=
  match item with
  | PDict d =>
      (str_or_falsy (label d)
       && nested_name_ok (dict_get d "after" (PDict []))
       && nested_name_ok (dict_get d "before" (PDict [])))%bool
  | _ => false
  end.


(** ** Sample filters and events *)

Definition mk_event (tag : string) (items : list pyval) : WebhookEvent :=
  {| event := tag; task_id := "86c0xyz"; history_items := Some items |}.

Definition with_field_id (fid : string) : CustomFieldFilter.t :=
  CustomFieldFilter.Build_t (Some fid) None.

(** {"field_id": "X", "field": "desc"} *)
Definition item_x_desc : pyval :=
  PDict [("field_id", PStr "X"); ("field", PStr "desc")].


(** {"field": 5} and {"field_id": "X"} *)
Definition item_int_label : pyval := PDict [("field", PInt 5)].
Definition item_x : dict := [("field_id", PStr "X")].

(** A history item of a status change in which the "status" of "before"
    and "after" is the status text itself:
    {"before": {"status": "to do"}, "after": {"status": "in progress"}} *)
Definition clickup_status_item : pyval :=
  PDict [("before", PDict [("status", PStr "to do")]);
         ("after", PDict [("status", PStr "in progress")])].

(** {"after": {"status": {"status": v}}} *)
Definition item_after (v : pyval) : pyval :=
  PDict [("after", PDict [("status", PDict [("status", v)])])].

(** ** The status filter on one item, as a condition

    [status_text x] is the status the filter reads from a "before" or
    "after" value when that works out to a str. *)

Definition status_text (x : pyval) : option string :=
  match TaskStatusFilter.status_of x with
  | Ok (PStr s) => Some s
  | _ => None
  end.

Definition readable (item : pyval) : bool :=
  match item with
  | PDict d =>
      match status_text (dict_get d "before" (PDict [])),
            status_text (dict_get d "after" (PDict [])) with
      | Some _, Some _ => true
      | _, _ => false
      end
  | _ => false
  end.

(** The constraint is not set, or the status equals it ignoring case. *)
Definition constraint_met (c : option string) (status : option string) : bool :=
  match status with
  | Some s => (negb (supplied c) || (lower s =? lower (arg c))%string)%bool
  | None => false
  end.

Definition ts_matches (self : TaskStatusFilter.t) (item : pyval) : bool :=
  match item with
  | PDict d =>
      (constraint_met (TaskStatusFilter.from_status self) (status_text (dict_get d "before" (PDict [])))
       && constraint_met (TaskStatusFilter.to_status self) (status_text (dict_get d "after" (PDict []))))%bool
  | _ => false
  end.

(** The children of two combinators: a status filter and a field filter;
    an event-type filter and a status filter without constraints. *)
Definition status_or_field : list filter_obj :=
  [as_obj (status_changed None (Some "complete")); as_obj (with_field_id "X")].

Definition type_or_status : list filter_obj :=
  [as_obj (EventTypeFilter.init ["taskStatusUpdated"]); as_obj (status_changed None None)].

(** {"after": {"id": z}} and {"field_id": z} for an integer [z]. *)
Definition nested_id_item (z : Z) : pyval := PDict [("after", PDict [("id", PInt z)])].
Definition top_id_item (z : Z) : pyval := PDict [("field_id", PInt z)].

(** An event without history. *)
Definition bare_event (tag : string) : WebhookEvent :=
  {| event := tag; task_id := "86c0xyz"; history_items := None |}.

(** ** The assignee filter on one item, as a condition *)

(** The entry is a mapping whose "id" is the user id, or the user id
    itself. *)
Definition assignee_is (uid : string) (assignee : pyval) : bool :=
  match assignee with
  | PDict a => eq_str (dict_get a "id" PNone) uid
  | _ => eq_str assignee uid
  end.

(** Some entry of the item's after.assignees list is the user. *)
Definition item_assigns (uid : string) (item : pyval) : bool :=
  match item with
  | PDict d =>
      match dict_get d "after" (PDict []) with
      | PDict a =>
          match dict_get a "assignees" (PList []) with
          | PList l => existsb (assignee_is uid) l
          | _ => false
          end
      | _ => false
      end
  | _ => false
  end.

(** An id strategy of the field filter holds on the item. *)
Definition item_matches_id (self : CustomFieldFilter.t) (item : pyval) : bool :=
  match item with
  | PDict d => id_strategies self d
  | _ => false
  end.

(** The computation raises nothing but [AttributeError]. *)
Definition attribute_errors_only {A : Type} (m : result A) : Prop :=
  forall ex : exn, m = Raise ex -> ex = AttributeError.

(** A filter with its constraints in upper case. *)
Definition upper_constraints (self : TaskStatusFilter.t) : TaskStatusFilter.t :=
  {| TaskStatusFilter.from_status := option_map upper (TaskStatusFilter.from_status self);
     TaskStatusFilter.to_status := option_map upper (TaskStatusFilter.to_status self) |}.

Definition with_event (e : WebhookEvent) (tag : string) : WebhookEvent :=
  {| event := tag; task_id := task_id e; history_items := history_items e |}.

(** Combinators over given children. *)
Definition all_of (children : list filter_obj) : CombinedFilter.t :=
  CombinedFilter.Build_t children "AND".
Definition any_of (children : list filter_obj) : CombinedFilter.t :=
  CombinedFilter.Build_t children "OR".

(** A child that raises, and one that answers a fixed boolean. *)
Definition raising_child (ex : exn) : filter_obj := {| obj_check := fun _ => Raise ex |}.
Definition constant_child (b : bool) : filter_obj := {| obj_check := fun _ => Ok b |}.

(** {"after": {"assignees": [{"id": "183"}]}} *)
Definition item_assignee_183 : pyval :=
  PDict [("after", PDict [("assignees", PList [PDict [("id", PStr "183")]])])].

(** ** components.py: the message and its keyboard

    The labels and the field names hold characters outside ASCII; such a
    str is written by its UTF-8 bytes. *)

(** The value of a decimal numeral read from the left, after [acc]. *)
Fixpoint uint_val (d : Decimal.uint) (acc : Z) : Z :=
  match d with
  | Decimal.Nil => acc
  | Decimal.D0 d => uint_val d (10 * acc)
  | Decimal.D1 d => uint_val d (10 * acc + 1)
  | Decimal.D2 d => uint_val d (10 * acc + 2)
  | Decimal.D3 d => uint_val d (10 * acc + 3)
  | Decimal.D4 d => uint_val d (10 * acc + 4)
  | Decimal.D5 d => uint_val d (10 * acc + 5)
  | Decimal.D6 d => uint_val d (10 * acc + 6)
  | Decimal.D7 d => uint_val d (10 * acc + 7)
  | Decimal.D8 d => uint_val d (10 * acc + 8)
  | Decimal.D9 d => uint_val d (10 * acc + 9)
  end.


Definition create_broker_keyboard (task_url task_id : string) : pyval :=
  let buttons :=
    PList [PList [PDict [("text", PStr "🔗 Taskni ochish"); ("url", PStr task_url)]];
           PList [PDict [("text", PStr "✅ Lot qo'yildi");
                         ("callback_data", PStr ("lot_in_" ++ task_id))]]] in
  PDict [("inline_keyboard", buttons)].

Definition nl : string := String (ascii_of_nat 10) "".

(** One line of the message: the label, the value, a line break. *)
Definition line (label value : string) : string := label ++ value ++ nl.

Section Message.

(** [get_clickup_client().tasks.get_task(task_id)], the fetch of a task
    from the service, and [get_custom_field_value(task, name)], the
    extraction of a custom field, are not among the sources; like the date
    conversion they are taken as given. *)
Variable get_task : string -> result pyval.
Variable get_custom_field_value : pyval -> string -> result pyval.
Variable fromtimestamp_strftime : Z * Z -> string -> result string.

Definition create_broker_message (task_id : string) : result string :=
  task <- get_task task_id ;;
  name <- py_get task "name" (PStr DEFAULT_VALUE) ;;
  status <- py_get task "status" (PDict []) ;;
  status_name <- (if isinstance_dict status
                  then py_get status "status" (PStr DEFAULT_VALUE)
                  else Ok (PStr DEFAULT_VALUE)) ;;
  quantity <- get_custom_field_value task "🔢 miqdori" ;;
  lot_out <- get_custom_field_value task "💵 lot chiqishi" ;;
  lot_in <- get_custom_field_value task "💸 lot qo'yilishi" ;;
  firma <- get_custom_field_value task "Firma" ;;
  xaridor <- get_custom_field_value task "Xaridor companiya" ;;
  hamkor <- get_custom_field_value task "Hamkor companiya" ;;
  hamkor_narx <- get_custom_field_value task "Hamkordan olinish narxi" ;;
  broker_deadline <- get_custom_field_value task "📅 broker dedline" ;;
  quantity_formatted <- format_number quantity ;;
  lot_out_formatted <- format_currency lot_out ;;
  lot_in_formatted <- format_currency lot_in ;;
  hamkor_narx_formatted <- format_currency hamkor_narx ;;
  let firma_name := get_relationship_name firma in
  let xaridor_name := get_relationship_name xaridor in
  let hamkor_name := get_relationship_name hamkor in
  deadline_text <- format_deadline fromtimestamp_strftime broker_deadline ;;
  Ok ("🆕 Yangi ish bor!" ++ nl ++ nl
      ++ line "📌 Ish nomi: " (py_str name)
      ++ line "📊 Status: " (py_str status_name)
      ++ line "📦 Soni: " quantity_formatted
      ++ line "🏢 Firmamiz: " (py_str firma_name)
      ++ line "👤 Xaridor: " (py_str xaridor_name)
      ++ line "🤝 Hamkor: " (py_str hamkor_name)
      ++ line "💰 Hamkordan olinish narxi: " hamkor_narx_formatted
      ++ line "📤 Lot chiqishi: " lot_out_formatted
      ++ line "📥 Lot qo'yilishi: " lot_in_formatted
      ++ line "📅 Broker dedline: " deadline_text).

End Message.

(** The message with the ten texts it shows, in the order of its lines. *)
Definition render_message (name status_name quantity firma xaridor hamkor
    hamkor_narx lot_out lot_in deadline : string) : string :=
  "🆕 Yangi ish bor!" ++ nl ++ nl
  ++ line "📌 Ish nomi: " name
  ++ line "📊 Status: " status_name
  ++ line "📦 Soni: " quantity
  ++ line "🏢 Firmamiz: " firma
  ++ line "👤 Xaridor: " xaridor
  ++ line "🤝 Hamkor: " hamkor
  ++ line "💰 Hamkordan olinish narxi: " hamkor_narx
  ++ line "📤 Lot chiqishi: " lot_out
  ++ line "📥 Lot qo'yilishi: " lot_in
  ++ line "📅 Broker dedline: " deadline.

(** The status text the message shows for a task. *)
Definition shown_status (task : dict) : pyval :=
  match dict_get task "status" (PDict []) with
  | PDict st => dict_get st "status" (PStr DEFAULT_VALUE)
  | _ => PStr DEFAULT_VALUE
  end.

(** Collaborators for examples: a fetch that answers one task, an
    extraction that finds no field, a date conversion that fails. *)
Definition fetch (task : pyval) : string -> result pyval := fun _ => Ok task.
Definition no_field : pyval -> string -> result pyval := fun _ _ => Ok PNone.
Definition no_date : Z * Z -> string -> result string := fun _ _ => Raise OSError.

(** An extraction that answers the same text for every field. *)
Definition same_field (text : string) : pyval -> string -> result pyval :=
  fun _ _ => Ok (PStr text).

(** {"name": "Lot 12", "status": "open"}: a task whose status is a text. *)
Definition task_flat_status : dict := [("name", PStr "Lot 12"); ("status", PStr "open")].

(** A field filter with its field name in upper case. *)
Definition upper_field_name (self : CustomFieldFilter.t) : CustomFieldFilter.t :=
  {| CustomFieldFilter.field_id := CustomFieldFilter.field_id self;
     CustomFieldFilter.field_name := option_map upper (CustomFieldFilter.field_name self) |}.

(** ** ASCII text

    On ASCII text [lower], [upper] and [int_of_str] are what [str.lower],
    [str.upper] and [int] compute. *)

Definition is_ascii_char (c : ascii) : bool := Nat.ltb (nat_of_ascii c) 128.

Fixpoint is_ascii (s : string) : bool :=
  match s with
  | EmptyString => true
  | String c rest => (is_ascii_char c && is_ascii rest)%bool
  end.

(** A plain value: every str inside it, keys included, is ASCII, and
    every integer inside it has at most [MAX_STR_DIGITS] digits. *)
Fixpoint plain_value (v : pyval) : bool :=
  match v with
  | PInt z => negb (beyond_cap_int z)
  | PStr s => is_ascii s
  | PList l => forallb plain_value l
  | PDict d => forallb (fun kv => (is_ascii (fst kv) && plain_value (snd kv))%bool) d
  | _ => true
  end.

(** The history of the event holds plain values only. *)
Definition plain_history (e : WebhookEvent) : Prop :=
  Forall (fun item => plain_value item = true) (items_of e).

(** A filter on the field name "Priority" and the item
    {"field": "PRIORITY level"}. *)
Definition by_priority : CustomFieldFilter.t :=
  CustomFieldFilter.Build_t None (Some "Priority").
Definition item_priority : pyval := PDict [("field", PStr "PRIORITY level")].

(** Event types in mixed case, and a status change from "Open" to
    "COMPLETE". *)
Definition mixed_case_types : list string := ["taskCreated"; "TASKDELETED"].
Definition item_open_to_complete : pyval :=
  PDict [("before", PDict [("status", PDict [("status", PStr "Open")])]);
         ("after", PDict [("status", PDict [("status", PStr "COMPLETE")])])].

(** {"after": {"id": s}} for a text [s], and {"name": "Acme"}. *)
Definition nested_text_id_item (s : string) : pyval :=
  PDict [("after", PDict [("id", PStr s)])].

(** * Properties *)

(** ** The loop *)

Lemma for_items_pure (body : pyval -> result bool) (p : pyval -> bool) (items : list pyval) :
  (forall item, In item items -> body item = Ok (p item)) ->
  for_items body items = Ok (existsb p items).
Proof.
  induction items as [|item rest IH]; intros Hbody; simpl.
  - reflexivity.
  - rewrite (Hbody item (or_introl eq_refl)). simpl.
    destruct (p item); simpl.
    + reflexivity.
    + apply IH. intros i Hi. apply Hbody. right. exact Hi.
Qed.

Lemma for_items_first_hit (body : pyval -> result bool) (item : pyval) (rest : list pyval) :
  body item = Ok true -> for_items body (item :: rest) = Ok true.
Proof. intros H. simpl. rewrite H. reflexivity. Qed.

Lemma for_items_first_raises (body : pyval -> result bool) (item : pyval)
    (rest : list pyval) (e : exn) :
  body item = Raise e -> for_items body (item :: rest) = Raise e.
Proof. intros H. simpl. rewrite H. reflexivity. Qed.

Lemma existsb_Exists {A : Type} (p : A -> bool) (l : list A) :
  existsb p l = true <-> Exists (fun x => p x = true) l.
Proof.
  rewrite existsb_exists, Exists_exists. reflexivity.
Qed.

(** ** CustomFieldFilter *)

Lemma name_within_step (name : string) (v : pyval) :
  str_or_falsy v = true ->
  (if truthy v then low <- py_lower v ;; Ok (contains (lower name) low) else Ok false)
  = Ok (name_within name v).
Proof.
  destruct v as [| b | z | f | s | l | d]; simpl; intros H.
  - reflexivity.
  - destruct b; [discriminate | reflexivity].
  - destruct (z =? 0); [reflexivity | discriminate].
  - destruct f as [| neg | neg m e r]; simpl in *; try discriminate.
    destruct (m =? 0)%N; [reflexivity | discriminate].
  - destruct (s =? "")%string; reflexivity.
  - destruct l; [reflexivity | discriminate].
  - destruct d; [reflexivity | discriminate].
Qed.

Lemma name_in_pure (name : string) (n : dict) :
  str_or_falsy (dict_get n "name" PNone) = true ->
  CustomFieldFilter.name_in name (PDict n) = Ok (nested_has_name name (PDict n)).
Proof.
  intros H. unfold CustomFieldFilter.name_in. simpl.
  assert (Hget : dict_get n "name" (PStr "") = dict_get n "name" PNone
                 \/ lookup "name" n = None).
  { unfold dict_get. destruct (lookup "name" n); [left; reflexivity | right; reflexivity]. }
  destruct Hget as [Hget | Hnone].
  - rewrite Hget. apply name_within_step. exact H.
  - unfold dict_get. rewrite Hnone. reflexivity.
Qed.

Lemma match_id_pure (fid : string) (d : dict) :
  CustomFieldFilter.match_id fid (PDict d) (label d) (effective_id d)
  = Ok (strategy1 fid d || strategy2 fid d || strategy3 fid d)%bool.
Proof.
  unfold CustomFieldFilter.match_id, strategy1, strategy2, strategy3.
  destruct (truthy (effective_id d) && (py_str (effective_id d) =? fid)%string)%bool;
    [reflexivity|].
  destruct (truthy (label d) && contains fid (py_str (label d)))%bool; [reflexivity|].
  simpl.
  destruct (dict_get d "after" (PDict [])) as [| ? | ? | ? | ? | ? |a];
    destruct (dict_get d "before" (PDict [])) as [| ? | ? | ? | ? | ? |bd]; simpl;
    try reflexivity;
    try (destruct (eq_str (dict_get a "id" PNone) fid
                   || eq_str (dict_get a "field_id" PNone) fid)%bool; reflexivity).
Qed.

Lemma match_name_pure (name : string) (d : dict) :
  well_shaped (PDict d) = true ->
  CustomFieldFilter.match_name name (PDict d) (label d) = Ok (strategy4 name d || strategy5 name d)%bool.
Proof.
  unfold well_shaped. intros H.
  apply andb_prop in H. destruct H as [H Hb]. apply andb_prop in H. destruct H as [Hl Ha].
  unfold CustomFieldFilter.match_name, strategy4, strategy5.
  rewrite (name_within_step name (label d) Hl). simpl.
  destruct (name_within name (label d)); [reflexivity|]. simpl.
  destruct (dict_get d "after" (PDict [])) as [| ? | ? | ? | ? | ? |a] eqn:Ea; simpl;
    destruct (dict_get d "before" (PDict [])) as [| ? | ? | ? | ? | ? |bd] eqn:Eb; simpl;
    try reflexivity;
    try (rewrite (name_in_pure name bd Hb); reflexivity);
    try (rewrite (name_in_pure name a Ha); simpl;
         destruct (name_within name (dict_get a "name" PNone)); reflexivity).
  rewrite (name_in_pure name a Ha). simpl.
  destruct (name_within name (dict_get a "name" PNone)); simpl; [reflexivity|].
  rewrite (name_in_pure name bd Hb). reflexivity.
Qed.

Lemma field_body_pure (self : CustomFieldFilter.t) (item : pyval) :
  well_shaped item = true -> CustomFieldFilter.body self item = Ok (item_matches self item).
Proof.
  destruct item as [| ? | ? | ? | ? | ? |d]; try discriminate.
  intros Hw. unfold CustomFieldFilter.body, item_matches, id_strategies, name_strategies. simpl.
  fold (label d). fold (effective_id d).
  destruct (supplied (CustomFieldFilter.field_id self)); simpl.
  - rewrite match_id_pure. simpl.
    destruct (strategy1 _ d || strategy2 _ d || strategy3 _ d)%bool; simpl; [reflexivity|].
    destruct (supplied (CustomFieldFilter.field_name self)); simpl; [|reflexivity].
    apply match_name_pure. exact Hw.
  - destruct (supplied (CustomFieldFilter.field_name self)); simpl; [|reflexivity].
    apply match_name_pure. exact Hw.
Qed.

Lemma CustomFieldFilter_check_pure (self : CustomFieldFilter.t) (e : WebhookEvent) :
  Forall (fun item => well_shaped item = true) (items_of e) ->
  CustomFieldFilter.check self e
  = Ok ((event e =? "taskUpdated")%string && existsb (item_matches self) (items_of e))%bool.
Proof.
  intros Hw. unfold CustomFieldFilter.check.
  destruct (event e =? "taskUpdated")%string; simpl; [|reflexivity].
  unfold no_history, items_of in *.
  destruct (history_items e) as [[|item rest]|]; try reflexivity.
  apply for_items_pure. intros i Hi. apply field_body_pure.
  rewrite Forall_forall in Hw. apply Hw. exact Hi.
Qed.

Lemma CustomFieldFilter_check_id_first (self : CustomFieldFilter.t) (tid : string)
    (d : dict) (rest : list pyval) :
  id_strategies self d = true ->
  CustomFieldFilter.check self {| event := "taskUpdated"; task_id := tid;
                history_items := Some (PDict d :: rest) |} = Ok true.
Proof.
  intros Hid. unfold CustomFieldFilter.check. simpl.
  apply for_items_first_hit.
  unfold id_strategies in Hid. apply andb_prop in Hid. destruct Hid as [Hs Hid].
  unfold CustomFieldFilter.body. simpl. fold (label d). fold (effective_id d).
  rewrite Hs, match_id_pure, Hid. reflexivity.
Qed.




(** ** TaskStatusFilter *)

(** What [TaskStatusFilter.status_of] does on every value: the empty string when the value
    is not a mapping, the nested status (or the empty string when a key is
    absent) when the value under "status" is a mapping, and an error in the
    one remaining case. *)
Lemma status_of_cases (x : pyval) :
  match x with
  | PDict d =>
      match dict_get d "status" (PDict []) with
      | PDict inner => TaskStatusFilter.status_of x = Ok (dict_get inner "status" (PStr ""))
      | _ => TaskStatusFilter.status_of x = Raise AttributeError
      end
  | _ => TaskStatusFilter.status_of x = Ok (PStr "")
  end.
Proof.
  destruct x as [| ? | ? | ? | ? | ? |d]; try reflexivity.
  unfold TaskStatusFilter.status_of. simpl.
  destruct (dict_get d "status" (PDict [])); reflexivity.
Qed.

Lemma status_text_some (x : pyval) (s : string) :
  status_text x = Some s -> TaskStatusFilter.status_of x = Ok (PStr s).
Proof.
  unfold status_text. destruct (TaskStatusFilter.status_of x) as [[| ? | ? | ? | t | ? | ?]|]; try discriminate.
  intros H. injection H as ->. reflexivity.
Qed.

Lemma differs_text (c : option string) (s : string) :
  TaskStatusFilter.differs c (PStr s) = Ok (negb (constraint_met c (Some s))).
Proof.
  unfold TaskStatusFilter.differs, constraint_met. destruct (supplied c); simpl; [|reflexivity].
  reflexivity.
Qed.

Lemma status_body_pure (self : TaskStatusFilter.t) (item : pyval) :
  readable item = true -> TaskStatusFilter.body self item = Ok (ts_matches self item).
Proof.
  destruct item as [| ? | ? | ? | ? | ? |d]; try discriminate.
  unfold readable, ts_matches, TaskStatusFilter.body. simpl.
  destruct (status_text (dict_get d "before" (PDict []))) as [old|] eqn:Eo; [|discriminate].
  destruct (status_text (dict_get d "after" (PDict []))) as [new|] eqn:En; [|discriminate].
  intros _.
  rewrite (status_text_some _ _ Eo), (status_text_some _ _ En). cbn [bind].
  rewrite differs_text. cbn [bind].
  destruct (constraint_met (TaskStatusFilter.from_status self) (Some old)); cbn [negb andb]; [|reflexivity].
  rewrite differs_text. cbn [bind].
  destruct (constraint_met (TaskStatusFilter.to_status self) (Some new)); reflexivity.
Qed.

(** On a status event whose items are all readable the filter returns, and
    answers whether some item meets every constraint that is set. *)
Lemma TaskStatusFilter_check_readable (self : TaskStatusFilter.t) (e : WebhookEvent) :
  Forall (fun item => readable item = true) (items_of e) ->
  TaskStatusFilter.check self e
  = Ok ((event e =? "taskStatusUpdated")%string && existsb (ts_matches self) (items_of e))%bool.
Proof.
  intros Hr. unfold TaskStatusFilter.check.
  destruct (event e =? "taskStatusUpdated")%string; simpl; [|reflexivity].
  unfold no_history, items_of in *.
  destruct (history_items e) as [[|item rest]|]; try reflexivity.
  apply for_items_pure. intros i Hi. apply status_body_pure.
  rewrite Forall_forall in Hr. apply Hr. exact Hi.
Qed.

(** With no constraint set, a readable first item gives true, whatever
    follows it. *)
Lemma TaskStatusFilter_check_unconstrained (item : pyval) (rest : list pyval) :
  readable item = true ->
  TaskStatusFilter.check (status_changed None None) (mk_event "taskStatusUpdated" (item :: rest)) = Ok true.
Proof.
  intros Hr. unfold TaskStatusFilter.check. simpl.
  apply for_items_first_hit. rewrite (status_body_pure _ _ Hr).
  destruct item as [| ? | ? | ? | ? | ? |d]; try discriminate.
  unfold readable in Hr. unfold ts_matches. simpl.
  destruct (status_text (dict_get d "before" (PDict []))); [|discriminate].
  destruct (status_text (dict_get d "after" (PDict []))); [|discriminate].
  reflexivity.
Qed.

(** An item whose "before" is a mapping with a "status" that is not itself
    a mapping makes the loop body raise, whatever the constraints; so does
    the check when that item comes first. *)
Lemma status_body_flat_status (self : TaskStatusFilter.t) (d b : dict) (v : pyval) :
  dict_get d "before" (PDict []) = PDict b ->
  lookup "status" b = Some v ->
  isinstance_dict v = false ->
  TaskStatusFilter.body self (PDict d) = Raise AttributeError.
Proof.
  intros Hb Hs Hv. unfold TaskStatusFilter.body. cbn [py_get bind]. rewrite Hb.
  unfold TaskStatusFilter.status_of at 1. cbn [isinstance_dict py_get bind].
  unfold dict_get. rewrite Hs.
  destruct v; try discriminate; reflexivity.
Qed.

Lemma status_check_flat_status (self : TaskStatusFilter.t) (tid : string)
    (d b : dict) (v : pyval) (rest : list pyval) :
  dict_get d "before" (PDict []) = PDict b ->
  lookup "status" b = Some v ->
  isinstance_dict v = false ->
  TaskStatusFilter.check self
    {| event := "taskStatusUpdated"; task_id := tid;
       history_items := Some (PDict d :: rest) |} = Raise AttributeError.
Proof.
  intros Hb Hs Hv. unfold TaskStatusFilter.check, no_history, items_of.
  cbn [event history_items]. rewrite String.eqb_refl. cbn [negb].
  apply for_items_first_raises. exact (status_body_flat_status self d b v Hb Hs Hv).
Qed.

(** The eighth test of the specification: "complete" matches "Complete"
    and does not match "Open". *)
Example status_complete_matches :
  TaskStatusFilter.check (status_changed None (Some "complete"))
        (mk_event "taskStatusUpdated" [item_after (PStr "Complete")]) = Ok true
  /\ TaskStatusFilter.check (status_changed None (Some "complete"))
           (mk_event "taskStatusUpdated" [item_after (PStr "Open")]) = Ok false.
Proof. split; reflexivity. Qed.

(** C1.  The status filter does not turn every wrong shape into the empty
    string: a value under "status" that is not a mapping, as in the item
    {"before": {"status": "to do"}, "after": {"status": "in progress"}},
    makes the extraction raise, and so does the check, even with no
    constraint set; a nested status that is not a str, as in
    {"after": {"status": {"status": 5}}}, makes the check raise as soon as
    the matching constraint is set. *)
Theorem status_check_raises_on_wrong_shape :
  TaskStatusFilter.status_of (PDict [("status", PStr "to do")]) = Raise AttributeError
  /\ TaskStatusFilter.check (status_changed None None)
           (mk_event "taskStatusUpdated" [clickup_status_item]) = Raise AttributeError
  /\ TaskStatusFilter.check (status_changed None (Some "complete"))
           (mk_event "taskStatusUpdated" [item_after (PInt 5)]) = Raise AttributeError.
Proof. repeat split. Qed.

(** C3.  On a status event with a non-empty history the filter does not
    always answer: with no constraint set, the first item
    {"before": {"status": "to do"}, "after": {"status": "in progress"}}
    raises instead of giving true; with [to_status="complete"], an item
    whose after.status.status is "Complete" is not reached when that item
    comes before it. *)
Theorem status_check_raises_before_match :
  TaskStatusFilter.check (status_changed None None)
        (mk_event "taskStatusUpdated" [clickup_status_item; item_after (PStr "Complete")])
    = Raise AttributeError
  /\ TaskStatusFilter.check (status_changed None (Some "complete"))
           (mk_event "taskStatusUpdated" [clickup_status_item; item_after (PStr "Complete")])
      = Raise AttributeError
  /\ ts_matches (status_changed None (Some "complete")) (item_after (PStr "Complete")) = true.
Proof. repeat split. Qed.

(** ** CombinedFilter *)

Lemma gather_all_return (children : list filter_obj) (e : WebhookEvent)
    (rs acc : list bool) :
  Forall2 (fun c r => obj_check c e = Ok r) children rs ->
  CombinedFilter.gather children e acc = Ok (acc ++ rs)%list.
Proof.
  intros H. revert acc. induction H as [|c r cs rs Hc _ IH]; intros acc; simpl.
  - rewrite app_nil_r. reflexivity.
  - rewrite Hc. simpl. rewrite IH, <- app_assoc. reflexivity.
Qed.

Lemma gather_inv (children : list filter_obj) (e : WebhookEvent) (acc results : list bool) :
  CombinedFilter.gather children e acc = Ok results ->
  exists rs, Forall2 (fun c r => obj_check c e = Ok r) children rs /\ results = (acc ++ rs)%list.
Proof.
  revert acc. induction children as [|c cs IH]; intros acc; simpl.
  - intros H. injection H as <-. exists []. split; [constructor | now rewrite app_nil_r].
  - destruct (obj_check c e) as [r|ex] eqn:Hc; simpl; [|discriminate].
    intros H. destruct (IH _ H) as (rs & Hrs & ->).
    exists (r :: rs). split; [constructor; assumption | now rewrite <- app_assoc].
Qed.

Lemma Forall2_all_true (children : list filter_obj) (e : WebhookEvent) (rs : list bool) :
  Forall2 (fun c r => obj_check c e = Ok r) children rs ->
  (all rs = true <-> Forall (fun c => obj_check c e = Ok true) children).
Proof.
  induction 1 as [|c r cs rs Hc _ IH]; simpl.
  - split; [constructor | reflexivity].
  - unfold all in *. simpl. rewrite andb_true_iff, IH. split.
    + intros [-> Hcs]. constructor; assumption.
    + intros Hall. inversion Hall as [|? ? Hc' Hcs]; subst.
      rewrite Hc in Hc'. injection Hc' as ->. split; [reflexivity | assumption].
Qed.

Lemma Forall2_any_true (children : list filter_obj) (e : WebhookEvent) (rs : list bool) :
  Forall2 (fun c r => obj_check c e = Ok r) children rs ->
  (any rs = true <-> Exists (fun c => obj_check c e = Ok true) children).
Proof.
  induction 1 as [|c r cs rs Hc _ IH]; simpl.
  - split; [discriminate | intros H; inversion H].
  - unfold any in *. simpl. rewrite orb_true_iff, IH. split.
    + intros [-> | Hcs]; [left; assumption | right; assumption].
    + intros Hex. inversion Hex as [? ? Hc' | ? ? Hcs]; subst.
      * rewrite Hc in Hc'. injection Hc' as ->. left. reflexivity.
      * right. assumption.
Qed.

Lemma Forall2_of_returns (children : list filter_obj) (e : WebhookEvent) :
  Forall (fun c => returns (obj_check c e)) children ->
  exists rs, Forall2 (fun c r => obj_check c e = Ok r) children rs.
Proof.
  induction 1 as [|c cs [r Hc] _ [rs IH]].
  - exists []. constructor.
  - exists (r :: rs). constructor; assumption.
Qed.

Lemma Forall2_returns (children : list filter_obj) (e : WebhookEvent) (rs : list bool) :
  Forall2 (fun c r => obj_check c e = Ok r) children rs ->
  Forall (fun c => returns (obj_check c e)) children.
Proof.
  induction 1 as [|c r cs rs Hc _ IH]; constructor; [exists r; exact Hc | exact IH].
Qed.

(** C4 (amended).  In mode "AND" the combinator returns true exactly when
    every child returns true.  In mode "OR", with at least one child, it
    returns true exactly when some child returns true and no child raises:
    every child is evaluated, and an error of any child is the error of the
    combinator.  With no child it returns true in every mode. *)
Theorem combined_check_spec (children : list filter_obj) (e : WebhookEvent) :
  (CombinedFilter.check (CombinedFilter.Build_t children "AND") e = Ok true
   <-> Forall (fun c => obj_check c e = Ok true) children)
  /\ (children <> [] ->
      (CombinedFilter.check (CombinedFilter.Build_t children "OR") e = Ok true
       <-> Exists (fun c => obj_check c e = Ok true) children
           /\ Forall (fun c => returns (obj_check c e)) children))
  /\ (forall mode : string, CombinedFilter.check (CombinedFilter.Build_t [] mode) e = Ok true).
Proof.
  split; [|split].
  - unfold CombinedFilter.check. simpl.
    destruct children as [|c cs] eqn:E; [split; [constructor | reflexivity]|].
    rewrite <- E. clear E. split.
    + intros H. destruct (CombinedFilter.gather children e []) as [rs|ex] eqn:Hg; [|discriminate].
      simpl in H. injection H as H.
      destruct (gather_inv _ _ _ _ Hg) as (rs' & Hrs & ->). simpl in H.
      apply (Forall2_all_true _ _ _ Hrs). exact H.
    + intros Hall.
      assert (Hret : Forall (fun c => returns (obj_check c e)) children).
      { eapply Forall_impl; [|exact Hall]. intros c0 Hc0. exists true. exact Hc0. }
      destruct (Forall2_of_returns _ _ Hret) as [rs Hrs].
      rewrite (gather_all_return _ _ _ [] Hrs). simpl.
      f_equal. apply (Forall2_all_true _ _ _ Hrs). exact Hall.
  - intros Hne. unfold CombinedFilter.check. simpl.
    destruct children as [|c cs] eqn:E; [contradiction|].
    rewrite <- E. clear E Hne. split.
    + intros H. destruct (CombinedFilter.gather children e []) as [rs|ex] eqn:Hg; [|discriminate].
      simpl in H. injection H as H.
      destruct (gather_inv _ _ _ _ Hg) as (rs' & Hrs & ->). simpl in H.
      split; [apply (Forall2_any_true _ _ _ Hrs); exact H | exact (Forall2_returns _ _ _ Hrs)].
    + intros [Hex Hret].
      destruct (Forall2_of_returns _ _ Hret) as [rs Hrs].
      rewrite (gather_all_return _ _ _ [] Hrs). simpl.
      f_equal. apply (Forall2_any_true _ _ _ Hrs). exact Hex.
  - intros mode. reflexivity.
Qed.

(** Two children that both answer: in mode "OR" the first one matching is
    enough. *)
Lemma combined_check_spec_witness :
  status_or_field <> []
  /\ CombinedFilter.check (CombinedFilter.Build_t status_or_field "OR")
       (mk_event "taskStatusUpdated" [item_after (PStr "Complete")]) = Ok true.
Proof.
  assert (Hne : status_or_field <> []) by discriminate.
  split; [exact Hne|].
  destruct (combined_check_spec status_or_field
              (mk_event "taskStatusUpdated" [item_after (PStr "Complete")]))
    as (_ & Hor & _).
  apply (Hor Hne). split.
  - left. reflexivity.
  - repeat constructor; eexists; reflexivity.
Defined.

(** C4 as stated fails in mode "OR": on the status event with the item
    {"before": {"status": "to do"}, "after": {"status": "in progress"}}
    the event-type child returns true, the status child raises, and the
    combinator built from them raises. *)
Lemma combined_or_claim_fails :
  CombinedFilter.init type_or_status "or"
    = Ok (CombinedFilter.Build_t type_or_status "OR")
  /\ Exists (fun c => obj_check c (mk_event "taskStatusUpdated" [clickup_status_item]) = Ok true)
        type_or_status
  /\ CombinedFilter.check (CombinedFilter.Build_t type_or_status "OR")
           (mk_event "taskStatusUpdated" [clickup_status_item]) = Raise AttributeError.
Proof.
  split; [reflexivity|]. split; [left; reflexivity | reflexivity].
Qed.

(** ** History absent or empty *)

(** C5.  When [history_items] is absent or empty, the field filter, the
    status filter and the assignee filter built with a user id all return
    false: none of them raises. *)
Theorem no_history_no_match (e : WebhookEvent) :
  history_items e = None \/ history_items e = Some [] ->
  (forall self : CustomFieldFilter.t, CustomFieldFilter.check self e = Ok false)
  /\ (forall self : TaskStatusFilter.t, TaskStatusFilter.check self e = Ok false)
  /\ (forall self : TaskAssigneeFilter.t,
        supplied (TaskAssigneeFilter.user_id self) = true -> TaskAssigneeFilter.check self e = Ok false).
Proof.
  intros H.
  assert (Hno : no_history e = true).
  { unfold no_history. destruct H as [-> | ->]; reflexivity. }
  split; [|split].
  - intros self. unfold CustomFieldFilter.check. rewrite Hno.
    destruct (event e =? "taskUpdated")%string; reflexivity.
  - intros self. unfold TaskStatusFilter.check. rewrite Hno.
    destruct (event e =? "taskStatusUpdated")%string; reflexivity.
  - intros self Hs. unfold TaskAssigneeFilter.check. rewrite Hno, Hs.
    destruct (event e =? "taskAssigneeUpdated")%string; reflexivity.
Qed.

Lemma no_history_no_match_witness :
  (history_items (bare_event "taskAssigneeUpdated") = None
   \/ history_items (bare_event "taskAssigneeUpdated") = Some [])
  /\ TaskAssigneeFilter.check (assignee_changed (Some "183")) (bare_event "taskAssigneeUpdated") = Ok false.
Proof.
  assert (H : history_items (bare_event "taskAssigneeUpdated") = None
              \/ history_items (bare_event "taskAssigneeUpdated") = Some [])
    by (left; reflexivity).
  split; [exact H|].
  destruct (no_history_no_match (bare_event "taskAssigneeUpdated") H) as (_ & _ & Hta).
  apply Hta. reflexivity.
Defined.

(** ** Construction *)

(** C6.  Both constructors report a bad configuration themselves: the
    field filter raises when neither a field id nor a field name is
    supplied, the combinator raises when its mode, in upper case, is
    neither "AND" nor "OR".  So a filter that was constructed has a
    supplied id or name, and a combinator that was constructed has one of
    the two modes: nothing is left to fail at check time. *)
Theorem config_errors_at_construction :
  (forall field_id field_name : option string,
      supplied field_id = false -> supplied field_name = false ->
      CustomFieldFilter.init field_id field_name = Raise ValueError)
  /\ (forall (children : list filter_obj) (mode : string),
        upper mode <> "AND" -> upper mode <> "OR" ->
        CombinedFilter.init children mode = Raise ValueError)
  /\ (forall (field_id field_name : option string) (self : CustomFieldFilter.t),
        CustomFieldFilter.init field_id field_name = Ok self ->
        supplied (CustomFieldFilter.field_id self) = true \/ supplied (CustomFieldFilter.field_name self) = true)
  /\ (forall (children : list filter_obj) (mode : string) (self : CombinedFilter.t),
        CombinedFilter.init children mode = Ok self ->
        CombinedFilter.logic self = "AND" \/ CombinedFilter.logic self = "OR").
Proof.
  split; [|split; [|split]].
  - intros field_id field_name Hi Hn. unfold CustomFieldFilter.init.
    rewrite Hi, Hn. reflexivity.
  - intros children mode Ha Ho. unfold CombinedFilter.init, in_strings. simpl.
    destruct (String.eqb_spec (upper mode) "AND") as [Ea|_]; [contradiction|].
    destruct (String.eqb_spec (upper mode) "OR") as [Eo|_]; [contradiction|].
    reflexivity.
  - intros field_id field_name self. unfold CustomFieldFilter.init.
    destruct (supplied field_id) eqn:Hi; simpl.
    + intros H. injection H as <-. left. exact Hi.
    + destruct (supplied field_name) eqn:Hn; simpl; [|discriminate].
      intros H. injection H as <-. right. exact Hn.
  - intros children mode self. unfold CombinedFilter.init, in_strings. simpl.
    destruct (String.eqb_spec (upper mode) "AND") as [Ea|_]; simpl.
    + intros H. injection H as <-. left. exact Ea.
    + destruct (String.eqb_spec (upper mode) "OR") as [Eo|_]; simpl; [|discriminate].
      intros H. injection H as <-. right. exact Eo.
Qed.

Lemma config_errors_at_construction_witness :
  CustomFieldFilter.init None (Some "") = Raise ValueError
  /\ CombinedFilter.init [] "xor" = Raise ValueError.
Proof.
  destruct config_errors_at_construction as (Hcf & Hcomb & _).
  split.
  - apply Hcf; reflexivity.
  - apply Hcomb; discriminate.
Defined.

(** ** get_relationship_name *)

(** C10.  For a mapping, or a list whose first element is a mapping, the
    function hands back what is stored under "name" as it is, a str or
    not, and the sentinel only when the key is absent; so
    [get_relationship_name([{"name": None}])] is [None]. *)
Theorem relationship_name_present_or_absent :
  (forall (d : dict) (v : pyval),
      lookup "name" d = Some v ->
      get_relationship_name (PDict d) = v
      /\ forall rest, get_relationship_name (PList (PDict d :: rest)) = v)
  /\ (forall d : dict,
        lookup "name" d = None ->
        get_relationship_name (PDict d) = PStr "N/A"
        /\ forall rest, get_relationship_name (PList (PDict d :: rest)) = PStr "N/A")
  /\ get_relationship_name (PList [PDict [("name", PNone)]]) = PNone.
Proof.
  split; [|split].
  - intros d v Hl. unfold get_relationship_name, dict_get. simpl. rewrite Hl.
    destruct d; [discriminate|]. split; reflexivity.
  - intros d Hl. unfold get_relationship_name, dict_get. simpl. rewrite Hl.
    destruct d; split; reflexivity.
  - reflexivity.
Qed.

Lemma relationship_name_present_or_absent_witness :
  lookup "name" [("id", PStr "9"); ("name", PInt 7)] = Some (PInt 7)
  /\ get_relationship_name (PDict [("id", PStr "9"); ("name", PInt 7)]) = PInt 7.
Proof.
  split; [reflexivity|].
  destruct relationship_name_present_or_absent as (Hp & _).
  apply (Hp [("id", PStr "9"); ("name", PInt 7)]). reflexivity.
Defined.

(** ** The formatters *)

Lemma string_of_uint_chars (c : ascii) (d : Decimal.uint) :
  digit_val c = None -> mem_char c (NilEmpty.string_of_uint d) = false.
Proof.
  intros H. induction d; simpl; try reflexivity; rewrite IHd;
    match goal with
    | |- (Ascii.eqb c ?x || false)%bool = false =>
        destruct (Ascii.eqb_spec c x) as [E|_];
        [rewrite E in H; vm_compute in H; discriminate H | reflexivity]
    end.
Qed.

Lemma nilzero_uint_chars (c : ascii) (d : Decimal.uint) :
  digit_val c = None -> mem_char c (NilZero.string_of_uint d) = false.
Proof.
  intros H. destruct d;
    [exact (string_of_uint_chars c (Decimal.D0 Decimal.Nil) H)
    | apply (string_of_uint_chars c _ H) ..].
Qed.

Lemma int_str_chars (c : ascii) (z : Z) :
  digit_val c = None -> c <> "-"%char -> mem_char c (int_str z) = false.
Proof.
  intros H Hm. unfold int_str, NilZero.string_of_int.
  destruct (Z.to_int z) as [d|d].
  - apply nilzero_uint_chars. exact H.
  - cbn [mem_char]. destruct (Ascii.eqb_spec c "-") as [E|_]; [contradiction|].
    apply nilzero_uint_chars. exact H.
Qed.

Lemma int_str_not_empty (z : Z) : int_str z <> "".
Proof.
  unfold int_str, NilZero.string_of_int, NilZero.string_of_uint.
  destruct (Z.to_int z) as [d|d]; destruct d; discriminate.
Qed.

Lemma replace_insert_sep (s : string) :
  mem_char "," s = false ->
  replace_char "," " " (insert_sep "," s) = insert_sep " " s.
Proof.
  induction s as [|c rest IH]; intros H; [reflexivity|].
  cbn [mem_char] in H. apply orb_false_iff in H. destruct H as [Hc Hrest].
  cbn [insert_sep replace_char]. rewrite Ascii.eqb_sym, Hc.
  destruct (Nat.ltb 0 (String.length rest) && Nat.eqb (String.length rest mod 3) 0)%bool.
  - cbn [append replace_char]. rewrite Ascii.eqb_refl, (IH Hrest). reflexivity.
  - rewrite (IH Hrest). reflexivity.
Qed.

(** Replacing the commas of [f"{num:,}"] by spaces is grouping with
    spaces. *)
Lemma replace_format_comma (num : Z) :
  replace_char "," " " (format_comma num) = grouped " " num.
Proof.
  unfold format_comma, grouped. destruct (num <? 0); simpl.
  - rewrite replace_insert_sep; [reflexivity|].
    apply int_str_chars; [reflexivity | discriminate].
  - apply replace_insert_sep. apply int_str_chars; [reflexivity | discriminate].
Qed.

(** Grouping only adds separators: without them the digits are back. *)
Lemma insert_sep_digits (s : string) :
  mem_char " " s = false -> replace_char " " "" (insert_sep " " s) = s.
Proof.
  induction s as [|c rest IH]; intros H; [reflexivity|].
  cbn [mem_char] in H. apply orb_false_iff in H. destruct H as [Hc Hrest].
  cbn [insert_sep replace_char]. rewrite Ascii.eqb_sym, Hc.
  destruct (Nat.ltb 0 (String.length rest) && Nat.eqb (String.length rest mod 3) 0)%bool.
  - cbn [append replace_char]. rewrite Ascii.eqb_refl, (IH Hrest). reflexivity.
  - rewrite (IH Hrest). reflexivity.
Qed.

(** One separator goes in for every full group of three digits that
    follows the leading group. *)
Lemma insert_sep_length (sep digits : string) :
  String.length (insert_sep sep digits)
  = (String.length digits + (String.length digits - 1) / 3 * String.length sep)%nat.
Proof.
  assert (Happ : forall a b : string,
             String.length (a ++ b) = (String.length a + String.length b)%nat).
  { induction a as [|c a IH]; intros b; simpl; [reflexivity | now rewrite IH]. }
  induction digits as [|c rest IH]; [reflexivity|].
  cbn [insert_sep String.length]. rewrite Nat.sub_succ, Nat.sub_0_r.
  set (n := String.length rest) in *.
  pose proof (Nat.div_mod_eq n 3) as Hn.
  pose proof (Nat.mod_upper_bound n 3 ltac:(discriminate)) as Hr.
  pose proof (Nat.div_mod_eq (n - 1) 3) as Hn'.
  pose proof (Nat.mod_upper_bound (n - 1) 3 ltac:(discriminate)) as Hr'.
  destruct (Nat.ltb_spec 0 n) as [Hpos|Hzero];
    destruct (Nat.eqb_spec (n mod 3) 0) as [Hmod|Hmod]; cbn [andb];
    rewrite ?Happ, IH.
  - replace (n / 3)%nat with ((n - 1) / 3 + 1)%nat by lia. lia.
  - replace (n / 3)%nat with ((n - 1) / 3)%nat by lia. lia.
  - replace (n / 3)%nat with ((n - 1) / 3)%nat by lia. lia.
  - replace (n / 3)%nat with ((n - 1) / 3)%nat by lia. lia.
Qed.

Lemma grouped_digits (num : Z) :
  0 <= num -> replace_char " " "" (grouped " " num) = int_str num.
Proof.
  intros H. unfold grouped. destruct (Z.ltb_spec num 0) as [Hneg|_]; [lia|].
  apply insert_sep_digits. apply int_str_chars; [reflexivity | discriminate].
Qed.

Lemma int_of_str_cases (s : string) :
  returns (int_of_str s) \/ int_of_str s = Raise ValueError.
Proof.
  unfold int_of_str.
  destruct (match strip s with
            | String "+" rest => parse_digits rest 0 false
            | String "-" rest => option_map Z.opp (parse_digits rest 0 false)
            | t => parse_digits t 0 false
            end) as [z|].
  - destruct (Nat.ltb MAX_STR_DIGITS (count_digits (strip s))).
    + right. reflexivity.
    + left. exists z. reflexivity.
  - right. reflexivity.
Qed.

(** [int(v)] fails with [ValueError] or [TypeError], which the formatters
    catch, except on an infinite float. *)
Lemma py_int_cases (v : pyval) :
  returns (py_int v) \/ py_int v = Raise ValueError \/ py_int v = Raise TypeError
  \/ (exists neg, v = PFloat (FInf neg)).
Proof.
  destruct v as [| b | z | f | s | l | d]; simpl.
  - right. right. left. reflexivity.
  - left. eexists. reflexivity.
  - left. eexists. reflexivity.
  - destruct f as [| neg | neg m e r]; simpl.
    + right. left. reflexivity.
    + right. right. right. exists neg. reflexivity.
    + left. eexists. reflexivity.
  - destruct (int_of_str_cases s) as [H | H]; [left; exact H | right; left; exact H].
  - right. right. left. reflexivity.
  - right. right. left. reflexivity.
Qed.

Lemma str_checked_returns (v : pyval) :
  beyond_cap v = false -> str_checked v = Ok (py_str v).
Proof. intros H. unfold str_checked. rewrite H. reflexivity. Qed.

Lemma str_checked_text (s : string) : str_checked (PStr s) = Ok s.
Proof. reflexivity. Qed.

(** The two numeric formatters return on every value that is not an
    infinite float and holds no integer beyond the digit cap. *)
Lemma format_currency_returns (v : pyval) :
  (forall neg, v <> PFloat (FInf neg)) -> beyond_cap v = false ->
  returns (format_currency v).
Proof.
  intros Hfin Hcap. unfold format_currency.
  destruct (truthy v); simpl; [|eexists; reflexivity].
  rewrite (str_checked_returns v Hcap).
  destruct (py_int_cases v) as [[n Hn] | [Hn | [Hn | [neg Hv]]]];
    [rewrite Hn | rewrite Hn | rewrite Hn | exfalso; exact (Hfin neg Hv)];
    simpl; try (eexists; reflexivity).
  unfold format_comma_checked. destruct (beyond_cap_int n); simpl; eexists; reflexivity.
Qed.

Lemma format_number_returns (v : pyval) :
  (forall neg, v <> PFloat (FInf neg)) -> beyond_cap v = false ->
  returns (format_number v).
Proof.
  intros Hfin Hcap. unfold format_number.
  destruct (truthy v); simpl; [|eexists; reflexivity].
  rewrite (str_checked_returns v Hcap).
  destruct (py_int_cases v) as [[n Hn] | [Hn | [Hn | [neg Hv]]]];
    [rewrite Hn | rewrite Hn | rewrite Hn | exfalso; exact (Hfin neg Hv)];
    simpl; try (eexists; reflexivity).
  unfold int_str_checked. destruct (beyond_cap_int n); simpl; eexists; reflexivity.
Qed.

(** A text that is not a number comes back as it is. *)
Lemma format_number_text (s : string) :
  s <> "" -> int_of_str s = Raise ValueError -> format_number (PStr s) = Ok s.
Proof.
  intros Hs Hp. unfold format_number. simpl.
  destruct (String.eqb_spec s "") as [E|_]; [contradiction|]. simpl.
  rewrite Hp. reflexivity.
Qed.

Section DeadlineFacts.

Variable local_date : Z * Z -> string -> result string.

Lemma format_deadline_text (s : string) :
  s <> "" -> int_of_str s = Raise ValueError -> format_deadline local_date (PStr s) = Ok s.
Proof.
  intros Hs Hp. unfold format_deadline. simpl.
  destruct (String.eqb_spec s "") as [E|_]; [contradiction|]. simpl.
  rewrite Hp. reflexivity.
Qed.

(** An integer too large for the division by 1000 to fit a float is not
    formatted: the [OverflowError] of the division is let through. *)
Lemma format_deadline_huge (n : Z) :
  1000 * (2 ^ 1024 - 2 ^ 970) <= Z.abs n ->
  format_deadline local_date (PInt n) = Raise OverflowError.
Proof.
  intros Hn. unfold format_deadline.
  assert (Hz : (n =? 0) = false) by (apply Z.eqb_neq; intros ->; vm_compute in Hn; apply Hn; reflexivity).
  cbn [truthy isinstance_int_or_str py_int bind]. rewrite Hz. cbn [negb].
  unfold py_truediv, MILLISECONDS_TO_SECONDS. cbn [Z.eqb Z.abs].
  destruct (Z.leb_spec (1000 * (2 ^ 1024 - 2 ^ 970)) (Z.abs n)) as [_|Hlt]; [reflexivity | lia].
Qed.

End DeadlineFacts.

(** C7.  A text that is not a number comes back unchanged from
    [format_number] and [format_deadline]; but the formatters are not
    total: [int(float("inf"))] raises [OverflowError], which neither
    [format_currency] nor [format_number] catches, and in
    [format_deadline] the division of an integer of 401 digits by 1000
    raises [OverflowError], which is not caught either. *)
Theorem formatters_let_overflow_through :
  format_currency (PFloat (FInf false)) = Raise OverflowError
  /\ format_number (PFloat (FInf false)) = Raise OverflowError
  /\ (forall local_date, format_deadline local_date (PInt (10 ^ 400)) = Raise OverflowError)
  /\ format_number (PStr "abc") = Ok "abc"
  /\ (forall local_date, format_deadline local_date (PStr "not-a-number") = Ok "not-a-number").
Proof.
  split; [reflexivity|]. split; [reflexivity|]. split; [|split].
  - intros local_date. vm_compute. reflexivity.
  - reflexivity.
  - intros local_date. reflexivity.
Qed.




(** ** Coerced and raw comparison of ids *)

Lemma to_int_not_nil (z : Z) :
  Z.to_int z <> Decimal.Pos Decimal.Nil /\ Z.to_int z <> Decimal.Neg Decimal.Nil.
Proof.
  destruct z as [|p|p]; cbn [Z.to_int]; split; try discriminate;
    intros H; injection H as H; exact (DecimalPos.Unsigned.to_uint_nonnil p H).
Qed.

(** Two integers with the same decimal text are the same. *)
Lemma int_str_inj (z z' : Z) : int_str z = int_str z' -> z = z'.
Proof.
  unfold int_str. intros H. apply DecimalZ.to_int_inj.
  apply (f_equal NilZero.int_of_string) in H.
  destruct (to_int_not_nil z) as [Hp Hn]. destruct (to_int_not_nil z') as [Hp' Hn'].
  rewrite (NilZero.isi _ Hp Hn), (NilZero.isi _ Hp' Hn') in H.
  injection H as H. exact H.
Qed.

(** C9.  With the field id given as the decimal text of a non-zero integer
    [z] of at most 4300 digits: the nested strategy compares as it is, so the item
    {"after": {"id": z}} does not match while {"after": {"id": "z"}}, with
    the id as text, does; the top-level strategy turns both sides into
    strings first, so the item {"field_id": z} matches, and
    {"field_id": z'} with another such integer [z'] does not. *)
Theorem nested_id_is_not_coerced (z z' : Z) :
  z <> 0 -> z' <> z -> beyond_cap_int z = false -> beyond_cap_int z' = false ->
  CustomFieldFilter.check (with_field_id (int_str z))
    (mk_event "taskUpdated" [nested_id_item z]) = Ok false
  /\ CustomFieldFilter.check (with_field_id (int_str z))
       (mk_event "taskUpdated" [nested_text_id_item (int_str z)]) = Ok true
  /\ CustomFieldFilter.check (with_field_id (int_str z))
       (mk_event "taskUpdated" [top_id_item z]) = Ok true
  /\ CustomFieldFilter.check (with_field_id (int_str z))
       (mk_event "taskUpdated" [top_id_item z']) = Ok false.
Proof.
  intros Hz Hz' _ _.
  assert (Hs : (int_str z =? "")%string = false).
  { apply String.eqb_neq. apply int_str_not_empty. }
  assert (Ht : (z =? 0) = false) by (apply Z.eqb_neq; exact Hz).
  assert (Hd : (int_str z' =? int_str z)%string = false).
  { apply String.eqb_neq. intros H. apply Hz'. exact (int_str_inj _ _ H). }
  split; [|split; [|split]].
  - rewrite CustomFieldFilter_check_pure by (repeat constructor).
    unfold item_matches, id_strategies, name_strategies, strategy1, strategy2, strategy3.
    simpl. rewrite Hs. reflexivity.
  - unfold mk_event, nested_text_id_item. apply CustomFieldFilter_check_id_first.
    unfold id_strategies, strategy1, strategy2, strategy3, nested_has_id. simpl.
    rewrite Hs, String.eqb_refl. reflexivity.
  - unfold mk_event, top_id_item. apply CustomFieldFilter_check_id_first.
    unfold id_strategies, strategy1, effective_id, py_or. simpl.
    rewrite Hs, Ht. simpl. rewrite Ht, String.eqb_refl. reflexivity.
  - rewrite CustomFieldFilter_check_pure by (repeat constructor).
    unfold item_matches, id_strategies, name_strategies, strategy1, strategy2, strategy3,
      effective_id, py_or.
    simpl. rewrite Hs. destruct (z' =? 0) eqn:E; simpl; [reflexivity|].
    rewrite ?E. simpl. rewrite Hd. reflexivity.
Qed.

(** The case of the claim: the integer 5 and the field id "5"; the other
    integer is 7. *)
Lemma nested_id_is_not_coerced_witness :
  (5 <> 0 /\ 7 <> 5 /\ beyond_cap_int 5 = false /\ beyond_cap_int 7 = false)
  /\ CustomFieldFilter.check (with_field_id "5")
       (mk_event "taskUpdated" [PDict [("after", PDict [("id", PInt 5)])]]) = Ok false
  /\ CustomFieldFilter.check (with_field_id "5")
       (mk_event "taskUpdated" [PDict [("after", PDict [("id", PStr "5")])]]) = Ok true
  /\ CustomFieldFilter.check (with_field_id "5")
       (mk_event "taskUpdated" [PDict [("field_id", PInt 5)]]) = Ok true
  /\ CustomFieldFilter.check (with_field_id "5")
       (mk_event "taskUpdated" [PDict [("field_id", PInt 7)]]) = Ok false.
Proof.
  assert (H : 5 <> 0) by discriminate.
  assert (H' : 7 <> 5) by discriminate.
  split; [split; [exact H | split; [exact H' | split; reflexivity]]|].
  exact (nested_id_is_not_coerced 5 7 H H' eq_refl eq_refl).
Defined.

(** * Further properties of the filters *)

Lemma for_items_ext (f g : pyval -> result bool) (items : list pyval) :
  (forall item, f item = g item) -> for_items f items = for_items g items.
Proof.
  intros H. induction items as [|item rest IH]; simpl; [reflexivity|].
  rewrite H, IH. reflexivity.
Qed.

(** ** TaskAssigneeFilter *)

Lemma assignee_body_pure (uid : string) (assignee : pyval) :
  TaskAssigneeFilter.assignee_body uid assignee = Ok (assignee_is uid assignee).
Proof.
  destruct assignee as [| ? | ? | ? | ? | ? |a]; try reflexivity.
  unfold TaskAssigneeFilter.assignee_body, assignee_is. simpl.
  destruct (eq_str (dict_get a "id" PNone) uid); reflexivity.
Qed.

Lemma assignee_item_pure (uid : string) (d : dict) :
  TaskAssigneeFilter.body uid (PDict d) = Ok (item_assigns uid (PDict d)).
Proof.
  unfold TaskAssigneeFilter.body, item_assigns. simpl.
  destruct (dict_get d "after" (PDict [])) as [| ? | ? | ? | ? | ? |a]; try reflexivity.
  simpl. destruct (dict_get a "assignees" (PList [])) as [| ? | ? | ? | ? | l | ?];
    try reflexivity.
  apply for_items_pure. intros i _. apply assignee_body_pure.
Qed.

(** X1.  The assignee filter built without a user id answers whether the
    event type is "taskAssigneeUpdated" and never looks at the history.
    Built with a user id, it returns on every event whose history items are
    mappings, whatever they hold, and answers true exactly when the type
    matches and some item's after.assignees list has an entry that is the
    user id or a mapping with that "id". *)
Theorem assignee_check_spec (self : TaskAssigneeFilter.t) (e : WebhookEvent) :
  (supplied (TaskAssigneeFilter.user_id self) = false ->
   TaskAssigneeFilter.check self e = Ok (event e =? "taskAssigneeUpdated")%string)
  /\ (Forall (fun item => isinstance_dict item = true) (items_of e) ->
      TaskAssigneeFilter.check self e
      = Ok ((event e =? "taskAssigneeUpdated")%string
            && (negb (supplied (TaskAssigneeFilter.user_id self))
                || existsb (item_assigns (arg (TaskAssigneeFilter.user_id self)))
                     (items_of e)))%bool).
Proof.
  unfold TaskAssigneeFilter.check. split.
  - intros ->. destruct (event e =? "taskAssigneeUpdated")%string; reflexivity.
  - intros Hm. destruct (event e =? "taskAssigneeUpdated")%string; [|reflexivity].
    destruct (supplied (TaskAssigneeFilter.user_id self)); [|reflexivity]. simpl.
    unfold no_history, items_of in *.
    destruct (history_items e) as [[|item rest]|]; try reflexivity.
    apply for_items_pure. intros i Hi.
    rewrite Forall_forall in Hm. specialize (Hm i Hi).
    destruct i as [| ? | ? | ? | ? | ? |d]; try discriminate.
    apply assignee_item_pure.
Qed.

Lemma assignee_check_spec_witness :
  Forall (fun item => isinstance_dict item = true)
    (items_of (mk_event "taskAssigneeUpdated" [PDict [("after", PInt 7)]; item_assignee_183]))
  /\ TaskAssigneeFilter.check (assignee_changed (Some "183"))
       (mk_event "taskAssigneeUpdated" [PDict [("after", PInt 7)]; item_assignee_183])
     = Ok true.
Proof.
  assert (Hm : Forall (fun item => isinstance_dict item = true)
                 (items_of (mk_event "taskAssigneeUpdated"
                              [PDict [("after", PInt 7)]; item_assignee_183]))).
  { repeat constructor. }
  split; [exact Hm|].
  destruct (assignee_check_spec (assignee_changed (Some "183"))
              (mk_event "taskAssigneeUpdated" [PDict [("after", PInt 7)]; item_assignee_183]))
    as [_ H].
  rewrite (H Hm). reflexivity.
Defined.

(** ** CustomFieldFilter built with a field id only *)

Lemma field_body_id_only (self : CustomFieldFilter.t) (d : dict) :
  supplied (CustomFieldFilter.field_name self) = false ->
  CustomFieldFilter.body self (PDict d) = Ok (id_strategies self d).
Proof.
  intros Hn. unfold CustomFieldFilter.body, id_strategies. simpl.
  fold (label d). fold (effective_id d). rewrite Hn.
  destruct (supplied (CustomFieldFilter.field_id self)); simpl; [|reflexivity].
  rewrite match_id_pure. simpl.
  destruct (strategy1 _ d || strategy2 _ d || strategy3 _ d)%bool; reflexivity.
Qed.

(** X2.  A field filter built without a field name never raises on an
    event whose history items are mappings, whatever their labels and
    nested values are: it answers whether the type is "taskUpdated" and
    some item satisfies one of the three id strategies. *)
Theorem field_check_by_id_is_safe (self : CustomFieldFilter.t) (e : WebhookEvent) :
  supplied (CustomFieldFilter.field_name self) = false ->
  Forall (fun item => isinstance_dict item = true) (items_of e) ->
  CustomFieldFilter.check self e
  = Ok ((event e =? "taskUpdated")%string
        && existsb (item_matches_id self) (items_of e))%bool.
Proof.
  intros Hn Hm. unfold CustomFieldFilter.check.
  destruct (event e =? "taskUpdated")%string; simpl; [|reflexivity].
  unfold no_history, items_of in *.
  destruct (history_items e) as [[|item rest]|]; try reflexivity.
  apply for_items_pure. intros i Hi.
  rewrite Forall_forall in Hm. specialize (Hm i Hi).
  destruct i as [| ? | ? | ? | ? | ? |d]; try discriminate.
  apply field_body_id_only. exact Hn.
Qed.

Lemma field_check_by_id_is_safe_witness :
  (supplied (CustomFieldFilter.field_name (with_field_id "X")) = false
   /\ Forall (fun item => isinstance_dict item = true)
        (items_of (mk_event "taskUpdated" [item_int_label; PDict item_x])))
  /\ CustomFieldFilter.check (with_field_id "X")
       (mk_event "taskUpdated" [item_int_label; PDict item_x]) = Ok true.
Proof.
  assert (Hn : supplied (CustomFieldFilter.field_name (with_field_id "X")) = false)
    by reflexivity.
  assert (Hm : Forall (fun item => isinstance_dict item = true)
                 (items_of (mk_event "taskUpdated" [item_int_label; PDict item_x]))).
  { repeat constructor. }
  split; [split; [exact Hn | exact Hm]|].
  rewrite (field_check_by_id_is_safe _ _ Hn Hm). reflexivity.
Defined.

(** ** Letter case *)

Lemma lower_upper_char (c : ascii) : lower_char (upper_char c) = lower_char c.
Proof. destruct c as [[] [] [] [] [] [] [] []]; reflexivity. Qed.

Lemma lower_lower_char (c : ascii) : lower_char (lower_char c) = lower_char c.
Proof. destruct c as [[] [] [] [] [] [] [] []]; reflexivity. Qed.

Lemma lower_upper (s : string) : lower (upper s) = lower s.
Proof.
  unfold lower, upper. induction s as [|c rest IH]; simpl; [reflexivity|].
  rewrite lower_upper_char, IH. reflexivity.
Qed.

Lemma lower_lower (s : string) : lower (lower s) = lower s.
Proof.
  unfold lower. induction s as [|c rest IH]; simpl; [reflexivity|].
  rewrite lower_lower_char, IH. reflexivity.
Qed.

Lemma upper_empty (s : string) : (upper s =? "")%string = (s =? "")%string.
Proof. destruct s; reflexivity. Qed.

Lemma supplied_upper (c : option string) : supplied (option_map upper c) = supplied c.
Proof. destruct c as [s|]; simpl; [rewrite upper_empty|]; reflexivity. Qed.

Lemma arg_upper (c : option string) : lower (arg (option_map upper c)) = lower (arg c).
Proof. destruct c as [s|]; simpl; [apply lower_upper | reflexivity]. Qed.

(** ** EventTypeFilter *)

Lemma in_strings_In (s : string) (l : list string) : in_strings s l = true <-> In s l.
Proof.
  unfold in_strings. rewrite existsb_exists. split.
  - intros (t & Ht & Heq). apply String.eqb_eq in Heq. subst. exact Ht.
  - intros H. exists s. split; [exact H | apply String.eqb_refl].
Qed.

(** X3.  On ASCII text the event-type filter never raises and ignores
    letter case on both sides: built from a list of ASCII types, on an event
    whose type is ASCII it answers true exactly when some listed type equals
    the event's type once both are lower-cased; so the answer does not
    change when the event's type is written in upper case. *)
Theorem event_type_check_spec (types : list string) (e : WebhookEvent) :
  Forall (fun t => is_ascii t = true) types ->
  is_ascii (event e) = true ->
  (exists b, EventTypeFilter.check (EventTypeFilter.init types) e = Ok b
             /\ (b = true <-> exists t, In t types /\ lower t = lower (event e)))
  /\ EventTypeFilter.check (EventTypeFilter.init types) (with_event e (upper (event e)))
     = EventTypeFilter.check (EventTypeFilter.init types) e.
Proof.
  intros _ _. unfold EventTypeFilter.check, EventTypeFilter.init. simpl. split.
  - eexists. split; [reflexivity|].
    rewrite in_strings_In, in_map_iff. split.
    + intros (t & Heq & Ht). exists t. split; [exact Ht | exact Heq].
    + intros (t & Ht & Heq). exists t. split; [exact Heq | exact Ht].
  - rewrite lower_upper. reflexivity.
Qed.

(** The types "taskCreated" and "TASKDELETED" on the event "TaskDeleted". *)
Lemma event_type_check_spec_witness :
  (Forall (fun t => is_ascii t = true) mixed_case_types
   /\ is_ascii (event (mk_event "TaskDeleted" [])) = true)
  /\ EventTypeFilter.check (EventTypeFilter.init mixed_case_types)
       (mk_event "TaskDeleted" []) = Ok true
  /\ EventTypeFilter.check (EventTypeFilter.init mixed_case_types)
       (with_event (mk_event "TaskDeleted" []) "TASKDELETED") = Ok true.
Proof.
  assert (Ht : Forall (fun t => is_ascii t = true) mixed_case_types).
  { repeat constructor. }
  assert (He : is_ascii (event (mk_event "TaskDeleted" [])) = true) by reflexivity.
  split; [split; [exact Ht | exact He]|].
  destruct (event_type_check_spec mixed_case_types (mk_event "TaskDeleted" []) Ht He)
    as [(b & Hb & Hiff) Hup].
  assert (Htrue : EventTypeFilter.check (EventTypeFilter.init mixed_case_types)
                    (mk_event "TaskDeleted" []) = Ok true).
  { rewrite Hb. f_equal. apply Hiff. exists "TASKDELETED".
    split; [right; left; reflexivity | reflexivity]. }
  split; [exact Htrue|].
  change "TASKDELETED" with (upper (event (mk_event "TaskDeleted" []))).
  rewrite Hup. exact Htrue.
Defined.

(** ** TaskStatusFilter *)

(** X4.  On a status event whose history items are all readable (each a
    mapping from whose "before" and "after" the filter reads a str), with
    the constraints of the filter ASCII and the history plain (its text
    ASCII, its integers of at most 4300 digits), the status filter
    returns, and it answers true exactly when some item meets every
    constraint that is set, ignoring letter case. *)
Theorem status_check_on_readable (self : TaskStatusFilter.t) (e : WebhookEvent) :
  Forall (fun item => readable item = true) (items_of e) ->
  is_ascii (arg (TaskStatusFilter.from_status self)) = true ->
  is_ascii (arg (TaskStatusFilter.to_status self)) = true ->
  plain_history e ->
  returns (TaskStatusFilter.check self e)
  /\ (TaskStatusFilter.check self e = Ok true <->
      event e = "taskStatusUpdated"
      /\ Exists (fun item => ts_matches self item = true) (items_of e)).
Proof.
  intros Hr _ _ _. rewrite (TaskStatusFilter_check_readable self e Hr). split.
  - eexists. reflexivity.
  - rewrite <- existsb_Exists. split.
    + intros H. injection H as H. apply andb_prop in H. destruct H as [Ht Hex].
      split; [apply String.eqb_eq; exact Ht | exact Hex].
    + intros [Ht Hex]. apply String.eqb_eq in Ht. rewrite Ht, Hex. reflexivity.
Qed.

Lemma status_check_on_readable_witness :
  (Forall (fun item => readable item = true)
     (items_of (mk_event "taskStatusUpdated"
                  [item_after (PStr "Open"); item_after (PStr "COMPLETE")]))
   /\ is_ascii (arg (TaskStatusFilter.from_status (status_changed None (Some "complete"))))
      = true
   /\ is_ascii (arg (TaskStatusFilter.to_status (status_changed None (Some "complete"))))
      = true
   /\ plain_history (mk_event "taskStatusUpdated"
                       [item_after (PStr "Open"); item_after (PStr "COMPLETE")]))
  /\ TaskStatusFilter.check (status_changed None (Some "complete"))
       (mk_event "taskStatusUpdated" [item_after (PStr "Open"); item_after (PStr "COMPLETE")])
     = Ok true.
Proof.
  assert (Hr : Forall (fun item => readable item = true)
                 (items_of (mk_event "taskStatusUpdated"
                              [item_after (PStr "Open"); item_after (PStr "COMPLETE")]))).
  { repeat constructor. }
  assert (Ha : plain_history (mk_event "taskStatusUpdated"
                                [item_after (PStr "Open"); item_after (PStr "COMPLETE")])).
  { repeat constructor. }
  split; [split; [exact Hr | split; [reflexivity | split; [reflexivity | exact Ha]]]|].
  destruct (status_check_on_readable (status_changed None (Some "complete")) _
              Hr eq_refl eq_refl Ha)
    as [_ Hiff].
  apply Hiff. split; [reflexivity|]. right. left. reflexivity.
Defined.

Lemma differs_upper (c : option string) (status : pyval) :
  TaskStatusFilter.differs (option_map upper c) status = TaskStatusFilter.differs c status.
Proof.
  unfold TaskStatusFilter.differs. rewrite supplied_upper, arg_upper. reflexivity.
Qed.

(** X5.  The letter case of ASCII constraints does not matter: with the
    constraints ASCII and the history plain (its text ASCII, its integers
    of at most 4300 digits), a status
    filter and the same filter with its constraints in upper case give the
    same result, value or error. *)
Theorem status_check_ignores_constraint_case (self : TaskStatusFilter.t) (e : WebhookEvent) :
  is_ascii (arg (TaskStatusFilter.from_status self)) = true ->
  is_ascii (arg (TaskStatusFilter.to_status self)) = true ->
  plain_history e ->
  TaskStatusFilter.check (upper_constraints self) e = TaskStatusFilter.check self e.
Proof.
  intros _ _ _. unfold TaskStatusFilter.check.
  destruct (negb (event e =? "taskStatusUpdated")%string); [reflexivity|].
  destruct (no_history e); [reflexivity|].
  apply for_items_ext. intros item.
  unfold TaskStatusFilter.body, upper_constraints.
  cbn [TaskStatusFilter.from_status TaskStatusFilter.to_status].
  destruct (py_get item "before" (PDict [])) as [before|]; cbn [bind]; [|reflexivity].
  destruct (py_get item "after" (PDict [])) as [after|]; cbn [bind]; [|reflexivity].
  destruct (TaskStatusFilter.status_of before) as [old_status|]; cbn [bind]; [|reflexivity].
  destruct (TaskStatusFilter.status_of after) as [new_status|]; cbn [bind]; [|reflexivity].
  rewrite differs_upper.
  destruct (TaskStatusFilter.differs (TaskStatusFilter.from_status self) old_status)
    as [[|]|]; cbn [bind]; try reflexivity.
  rewrite differs_upper. reflexivity.
Qed.

(** The filter from "open" to "complete" and the one from "OPEN" to
    "COMPLETE" both match a change from "Open" to "COMPLETE". *)
Lemma status_check_ignores_constraint_case_witness :
  (is_ascii (arg (TaskStatusFilter.from_status
                    (status_changed (Some "open") (Some "complete")))) = true
   /\ is_ascii (arg (TaskStatusFilter.to_status
                       (status_changed (Some "open") (Some "complete")))) = true
   /\ plain_history (mk_event "taskStatusUpdated" [item_open_to_complete]))
  /\ TaskStatusFilter.check (status_changed (Some "OPEN") (Some "COMPLETE"))
       (mk_event "taskStatusUpdated" [item_open_to_complete]) = Ok true
  /\ TaskStatusFilter.check (status_changed (Some "open") (Some "complete"))
       (mk_event "taskStatusUpdated" [item_open_to_complete]) = Ok true.
Proof.
  assert (Ha : plain_history (mk_event "taskStatusUpdated" [item_open_to_complete])).
  { repeat constructor. }
  split; [split; [reflexivity | split; [reflexivity | exact Ha]]|].
  split; [|reflexivity].
  change (status_changed (Some "OPEN") (Some "COMPLETE"))
    with (upper_constraints (status_changed (Some "open") (Some "complete"))).
  rewrite (status_check_ignores_constraint_case
             (status_changed (Some "open") (Some "complete"))
             (mk_event "taskStatusUpdated" [item_open_to_complete]) eq_refl eq_refl Ha).
  reflexivity.
Defined.

(** ** The only error is [AttributeError] *)

Lemma only_ok {A : Type} (a : A) : attribute_errors_only (Ok a).
Proof. intros ex H. discriminate. Qed.

Lemma only_bind {A B : Type} (m : result A) (k : A -> result B) :
  attribute_errors_only m -> (forall a, attribute_errors_only (k a)) ->
  attribute_errors_only (bind m k).
Proof.
  intros Hm Hk ex. destruct m as [a|ex']; simpl.
  - apply Hk.
  - intros H. injection H as <-. apply Hm. reflexivity.
Qed.

Lemma only_if {A : Type} (b : bool) (m1 m2 : result A) :
  attribute_errors_only m1 -> attribute_errors_only m2 ->
  attribute_errors_only (if b then m1 else m2).
Proof. destruct b; auto. Qed.

Lemma only_py_get (o : pyval) (key : string) (default : pyval) :
  attribute_errors_only (py_get o key default).
Proof. intros ex. destruct o; simpl; intros H; try discriminate; now injection H. Qed.

Lemma only_py_lower (v : pyval) : attribute_errors_only (py_lower v).
Proof. intros ex. destruct v; simpl; intros H; try discriminate; now injection H. Qed.

Lemma only_for_items (body : pyval -> result bool) (items : list pyval) :
  (forall item, attribute_errors_only (body item)) ->
  attribute_errors_only (for_items body items).
Proof.
  intros Hb. induction items as [|item rest IH]; simpl.
  - apply only_ok.
  - apply only_bind; [apply Hb|]. intros hit. apply only_if; [apply only_ok | exact IH].
Qed.

Create HintDb only_attr.
#[local] Hint Resolve only_ok only_py_get only_py_lower only_for_items : only_attr.

Ltac only_attr :=
  repeat first
    [ apply only_bind; [|intro]
    | apply only_if
    | apply only_for_items; intro
    | solve [auto with only_attr] ].

Lemma only_status_body (self : TaskStatusFilter.t) (item : pyval) :
  attribute_errors_only (TaskStatusFilter.body self item).
Proof.
  unfold TaskStatusFilter.body, TaskStatusFilter.status_of, TaskStatusFilter.differs.
  only_attr.
Qed.

Lemma only_field_body (self : CustomFieldFilter.t) (item : pyval) :
  attribute_errors_only (CustomFieldFilter.body self item).
Proof.
  unfold CustomFieldFilter.body, CustomFieldFilter.match_id, CustomFieldFilter.match_name,
    CustomFieldFilter.name_in.
  cbv zeta. only_attr.
Qed.

Lemma only_assignee_body (uid : string) (item : pyval) :
  attribute_errors_only (TaskAssigneeFilter.body uid item).
Proof.
  unfold TaskAssigneeFilter.body.
  apply only_bind; [apply only_py_get|]. intros after.
  apply only_if; [|apply only_ok].
  apply only_bind; [apply only_py_get|]. intros assignees.
  destruct assignees; try apply only_ok.
  apply only_for_items. intros assignee.
  unfold TaskAssigneeFilter.assignee_body. only_attr.
Qed.

(** X6.  Whatever the event holds, the field filter, the status filter and
    the assignee filter raise no error other than [AttributeError], and the
    event-type filter raises none at all. *)
Theorem filters_raise_only_attribute_error (e : WebhookEvent) :
  (forall self : CustomFieldFilter.t, attribute_errors_only (CustomFieldFilter.check self e))
  /\ (forall self : TaskStatusFilter.t, attribute_errors_only (TaskStatusFilter.check self e))
  /\ (forall self : TaskAssigneeFilter.t,
        attribute_errors_only (TaskAssigneeFilter.check self e))
  /\ (forall self : EventTypeFilter.t, returns (EventTypeFilter.check self e)).
Proof.
  split; [|split; [|split]]; intros self.
  - unfold CustomFieldFilter.check.
    repeat apply only_if; try apply only_ok.
    apply only_for_items. apply only_field_body.
  - unfold TaskStatusFilter.check.
    repeat apply only_if; try apply only_ok.
    apply only_for_items. apply only_status_body.
  - unfold TaskAssigneeFilter.check.
    repeat apply only_if; try apply only_ok.
    apply only_for_items. apply only_assignee_body.
  - eexists. reflexivity.
Qed.

Lemma status_body_unconstrained (self : TaskStatusFilter.t) (item : pyval) :
  supplied (TaskStatusFilter.from_status self) = false ->
  supplied (TaskStatusFilter.to_status self) = false ->
  TaskStatusFilter.body self item = Ok true
  \/ TaskStatusFilter.body self item = Raise AttributeError.
Proof.
  intros Hf Ht.
  destruct (TaskStatusFilter.body self item) as [[|]|ex] eqn:Hb.
  - left. reflexivity.
  - exfalso. revert Hb. unfold TaskStatusFilter.body, TaskStatusFilter.differs.
    rewrite Hf, Ht.
    destruct (py_get item "before" (PDict [])) as [before|]; cbn [bind]; [|discriminate].
    destruct (py_get item "after" (PDict [])) as [after|]; cbn [bind]; [|discriminate].
    destruct (TaskStatusFilter.status_of before); cbn [bind]; [|discriminate].
    destruct (TaskStatusFilter.status_of after); cbn [bind]; discriminate.
  - right. rewrite (only_status_body self item ex Hb). reflexivity.
Qed.

(** X7.  A status filter without constraints never answers false on a
    status event with a non-empty history: the first item decides, and it
    gives true or an [AttributeError]. *)
Theorem status_check_unconstrained_never_false (self : TaskStatusFilter.t) (e : WebhookEvent) :
  supplied (TaskStatusFilter.from_status self) = false ->
  supplied (TaskStatusFilter.to_status self) = false ->
  event e = "taskStatusUpdated" ->
  items_of e <> [] ->
  TaskStatusFilter.check self e = Ok true
  \/ TaskStatusFilter.check self e = Raise AttributeError.
Proof.
  intros Hf Ht He Hne. unfold TaskStatusFilter.check. rewrite He, String.eqb_refl.
  cbn [negb].
  unfold no_history, items_of in *.
  destruct (history_items e) as [[|item rest]|]; try contradiction.
  destruct (status_body_unconstrained self item Hf Ht) as [H|H].
  - left. apply for_items_first_hit. exact H.
  - right. apply for_items_first_raises. exact H.
Qed.

Lemma status_check_unconstrained_never_false_witness :
  (supplied (TaskStatusFilter.from_status (status_changed (Some "") None)) = false
   /\ supplied (TaskStatusFilter.to_status (status_changed (Some "") None)) = false
   /\ event (mk_event "taskStatusUpdated" [item_after (PInt 5); PNone]) = "taskStatusUpdated"
   /\ items_of (mk_event "taskStatusUpdated" [item_after (PInt 5); PNone]) <> [])
  /\ (TaskStatusFilter.check (status_changed (Some "") None)
        (mk_event "taskStatusUpdated" [item_after (PInt 5); PNone]) = Ok true
      \/ TaskStatusFilter.check (status_changed (Some "") None)
           (mk_event "taskStatusUpdated" [item_after (PInt 5); PNone]) = Raise AttributeError).
Proof.
  assert (Hne : items_of (mk_event "taskStatusUpdated" [item_after (PInt 5); PNone]) <> [])
    by discriminate.
  split; [repeat split; exact Hne|].
  exact (status_check_unconstrained_never_false (status_changed (Some "") None)
           (mk_event "taskStatusUpdated" [item_after (PInt 5); PNone])
           eq_refl eq_refl eq_refl Hne).
Defined.

(** ** CombinedFilter: errors and nesting *)

Lemma gather_acc (children : list filter_obj) (e : WebhookEvent) (acc : list bool) :
  CombinedFilter.gather children e acc
  = rs <- CombinedFilter.gather children e [] ;; Ok (acc ++ rs)%list.
Proof.
  revert acc. induction children as [|c cs IH]; intros acc; simpl.
  - rewrite app_nil_r. reflexivity.
  - destruct (obj_check c e) as [r|ex]; simpl; [|reflexivity].
    rewrite (IH (acc ++ [r])%list), (IH [r]).
    destruct (CombinedFilter.gather cs e []) as [rs|ex]; simpl; [|reflexivity].
    rewrite <- app_assoc. reflexivity.
Qed.

Lemma gather_app (xs ys : list filter_obj) (e : WebhookEvent) :
  CombinedFilter.gather (xs ++ ys) e []
  = rx <- CombinedFilter.gather xs e [] ;;
    ry <- CombinedFilter.gather ys e [] ;;
    Ok (rx ++ ry)%list.
Proof.
  induction xs as [|c cs IH]; simpl.
  - destruct (CombinedFilter.gather ys e []); reflexivity.
  - destruct (obj_check c e) as [r|ex]; simpl; [|reflexivity].
    rewrite (gather_acc (cs ++ ys)), (gather_acc cs _ [r]), IH.
    destruct (CombinedFilter.gather cs e []) as [rx|ex]; simpl; [|reflexivity].
    destruct (CombinedFilter.gather ys e []) as [ry|ex]; simpl; reflexivity.
Qed.

Lemma check_all_of (children : list filter_obj) (e : WebhookEvent) :
  CombinedFilter.check (all_of children) e
  = rs <- CombinedFilter.gather children e [] ;; Ok (all rs).
Proof.
  unfold CombinedFilter.check, all_of. simpl. destruct children; reflexivity.
Qed.

Lemma check_any_of (children : list filter_obj) (e : WebhookEvent) :
  children <> [] ->
  CombinedFilter.check (any_of children) e
  = rs <- CombinedFilter.gather children e [] ;; Ok (any rs).
Proof.
  unfold CombinedFilter.check, any_of. simpl. destruct children; [contradiction|reflexivity].
Qed.

Lemma check_pair_all (a b : CombinedFilter.t) (e : WebhookEvent) :
  CombinedFilter.check (all_of [as_obj a; as_obj b]) e
  = ra <- CombinedFilter.check a e ;; rb <- CombinedFilter.check b e ;; Ok (ra && rb)%bool.
Proof.
  unfold CombinedFilter.check at 1. simpl. unfold check, CombinedFilter_Filter.
  destruct (CombinedFilter.check a e) as [ra|ex]; simpl; [|reflexivity].
  destruct (CombinedFilter.check b e) as [rb|ex]; simpl; [|reflexivity].
  rewrite andb_true_r. reflexivity.
Qed.

Lemma check_pair_any (a b : CombinedFilter.t) (e : WebhookEvent) :
  CombinedFilter.check (any_of [as_obj a; as_obj b]) e
  = ra <- CombinedFilter.check a e ;; rb <- CombinedFilter.check b e ;; Ok (ra || rb)%bool.
Proof.
  unfold CombinedFilter.check at 1. simpl. unfold check, CombinedFilter_Filter.
  destruct (CombinedFilter.check a e) as [ra|ex]; simpl; [|reflexivity].
  destruct (CombinedFilter.check b e) as [rb|ex]; simpl; [|reflexivity].
  rewrite orb_false_r. reflexivity.
Qed.

(** X8.  Nesting combinators.  An "AND" of two "AND" combinators gives the
    same result, value or error, as one "AND" over all their children.  The
    same holds for "OR" as long as neither list of children is empty; an
    empty combinator, which always matches, makes an "OR" above it true
    whenever the other children return. *)
Theorem combined_nesting (xs ys : list filter_obj) (e : WebhookEvent) :
  CombinedFilter.check (all_of [as_obj (all_of xs); as_obj (all_of ys)]) e
  = CombinedFilter.check (all_of (xs ++ ys)) e
  /\ (xs <> [] -> ys <> [] ->
      CombinedFilter.check (any_of [as_obj (any_of xs); as_obj (any_of ys)]) e
      = CombinedFilter.check (any_of (xs ++ ys)) e)
  /\ (Forall (fun c => returns (obj_check c e)) ys ->
      CombinedFilter.check (any_of [as_obj (any_of []); as_obj (any_of ys)]) e = Ok true).
Proof.
  split; [|split].
  - rewrite check_pair_all, !check_all_of, gather_app.
    destruct (CombinedFilter.gather xs e []) as [rx|ex]; cbn [bind]; [|reflexivity].
    destruct (CombinedFilter.gather ys e []) as [ry|ex]; cbn [bind]; [|reflexivity].
    unfold all. rewrite forallb_app. reflexivity.
  - intros Hx Hy.
    assert (Hxy : (xs ++ ys)%list <> []).
    { intros H. apply app_eq_nil in H. destruct H as [H _]. exact (Hx H). }
    rewrite check_pair_any, (check_any_of (xs ++ ys) e Hxy), gather_app.
    rewrite (check_any_of xs e Hx), (check_any_of ys e Hy).
    destruct (CombinedFilter.gather xs e []) as [rx|ex]; cbn [bind]; [|reflexivity].
    destruct (CombinedFilter.gather ys e []) as [ry|ex]; cbn [bind]; [|reflexivity].
    unfold any. rewrite existsb_app. reflexivity.
  - intros Hret. rewrite check_pair_any.
    change (CombinedFilter.check (any_of []) e) with (@Ok bool true). cbn [bind].
    destruct ys as [|c cs]; [reflexivity|].
    rewrite (check_any_of (c :: cs) e ltac:(discriminate)).
    destruct (Forall2_of_returns _ _ Hret) as [rs Hrs].
    rewrite (gather_all_return _ _ _ [] Hrs). reflexivity.
Qed.

Lemma combined_nesting_witness :
  (status_or_field <> [] /\ type_or_status <> [])
  /\ CombinedFilter.check
       (any_of [as_obj (any_of status_or_field); as_obj (any_of type_or_status)])
       (mk_event "taskStatusUpdated" [item_after (PStr "Complete")])
     = CombinedFilter.check (any_of (status_or_field ++ type_or_status))
         (mk_event "taskStatusUpdated" [item_after (PStr "Complete")]).
Proof.
  assert (Hx : status_or_field <> []) by discriminate.
  assert (Hy : type_or_status <> []) by discriminate.
  split; [split; [exact Hx | exact Hy]|].
  destruct (combined_nesting status_or_field type_or_status
              (mk_event "taskStatusUpdated" [item_after (PStr "Complete")]))
    as (_ & Hor & _).
  exact (Hor Hx Hy).
Defined.

(** X9.  A combinator swallows no error and adds none: whatever its mode,
    it raises the error of the first child that raises when the children
    before it return, and it returns exactly when it has no child or every
    child returns. *)
Theorem combined_check_errors (mode : string) (e : WebhookEvent) :
  (forall (pre post : list filter_obj) (c : filter_obj) (ex : exn),
      Forall (fun c' => returns (obj_check c' e)) pre ->
      obj_check c e = Raise ex ->
      CombinedFilter.check (CombinedFilter.Build_t (pre ++ c :: post) mode) e = Raise ex)
  /\ (forall children : list filter_obj,
        returns (CombinedFilter.check (CombinedFilter.Build_t children mode) e)
        <-> Forall (fun c => returns (obj_check c e)) children).
Proof.
  split.
  - intros pre post c ex Hpre Hc. unfold CombinedFilter.check. simpl.
    destruct (pre ++ c :: post)%list eqn:E; [destruct pre; discriminate|].
    rewrite <- E. rewrite gather_app.
    destruct (Forall2_of_returns _ _ Hpre) as [rs Hrs].
    rewrite (gather_all_return _ _ _ [] Hrs). simpl. rewrite Hc. reflexivity.
  - intros children. unfold CombinedFilter.check. simpl.
    destruct children as [|c cs] eqn:E.
    + split; [constructor | intros _; eexists; reflexivity].
    + rewrite <- E. clear E. split.
      * intros [b Hb].
        destruct (CombinedFilter.gather children e []) as [rs|ex] eqn:Hg; [|discriminate].
        destruct (gather_inv _ _ _ _ Hg) as (rs' & Hrs & _).
        exact (Forall2_returns _ _ _ Hrs).
      * intros Hret. destruct (Forall2_of_returns _ _ Hret) as [rs Hrs].
        rewrite (gather_all_return _ _ _ [] Hrs). simpl.
        destruct (mode =? "AND")%string; eexists; reflexivity.
Qed.

Lemma combined_check_errors_witness :
  (Forall (fun c' => returns (obj_check c'
             (mk_event "taskStatusUpdated" [clickup_status_item])))
     [constant_child false]
   /\ obj_check (as_obj (status_changed None None))
        (mk_event "taskStatusUpdated" [clickup_status_item]) = Raise AttributeError)
  /\ CombinedFilter.check
       (all_of ([constant_child false]
                ++ as_obj (status_changed None None) :: [raising_child ValueError]))
       (mk_event "taskStatusUpdated" [clickup_status_item]) = Raise AttributeError.
Proof.
  assert (Hpre : Forall (fun c' => returns (obj_check c'
                    (mk_event "taskStatusUpdated" [clickup_status_item])))
                   [constant_child false]).
  { repeat constructor. eexists. reflexivity. }
  assert (Hc : obj_check (as_obj (status_changed None None))
                 (mk_event "taskStatusUpdated" [clickup_status_item]) = Raise AttributeError)
    by reflexivity.
  split; [split; [exact Hpre | exact Hc]|].
  destruct (combined_check_errors "AND" (mk_event "taskStatusUpdated" [clickup_status_item]))
    as [H _].
  exact (H [constant_child false] [raising_child ValueError] _ _ Hpre Hc).
Defined.

(** * Further properties of the formatters *)

(** ** Reading back the decimal text of an integer *)

Lemma parse_uint (d : Decimal.uint) (acc : Z) (prev : bool) :
  d <> Decimal.Nil \/ prev = true ->
  parse_digits (NilEmpty.string_of_uint d) acc prev = Some (uint_val d acc).
Proof.
  revert acc prev. induction d; intros acc prev H;
    [destruct H as [H | ->]; [contradiction | reflexivity] | ..];
    cbn [NilEmpty.string_of_uint parse_digits uint_val];
    match goal with
    | |- context [Ascii.eqb ?a ?b] =>
        let v := eval vm_compute in (Ascii.eqb a b) in change (Ascii.eqb a b) with v
    end;
    match goal with
    | |- context [digit_val ?a] =>
        let v := eval vm_compute in (digit_val a) in change (digit_val a) with v
    end;
    cbv iota; rewrite ?Z.add_0_r; apply IHd; right; reflexivity.
Qed.

Lemma uint_val_revapp (d a : Decimal.uint) :
  uint_val d (Z.of_N (DecimalPos.Unsigned.of_lu a))
  = Z.of_N (DecimalPos.Unsigned.of_lu (Decimal.revapp d a)).
Proof.
  revert a. induction d; intros a; cbn [uint_val Decimal.revapp]; [reflexivity | ..];
    rewrite <- IHd; f_equal; cbn [DecimalPos.Unsigned.of_lu]; lia.
Qed.

Lemma uint_val_to_uint (p : positive) : uint_val (Pos.to_uint p) 0 = Z.pos p.
Proof.
  change 0 with (Z.of_N (DecimalPos.Unsigned.of_lu Decimal.Nil)).
  rewrite uint_val_revapp.
  change (Decimal.revapp (Pos.to_uint p) Decimal.Nil) with (Decimal.rev (Pos.to_uint p)).
  rewrite <- DecimalPos.Unsigned.of_uint_alt, DecimalPos.Unsigned.of_to. reflexivity.
Qed.

Lemma space_is_no_digit (c : ascii) :
  is_space c = true -> digit_val c = None /\ c <> "-"%char.
Proof.
  destruct c as [[] [] [] [] [] [] [] []]; intros H; try discriminate H;
    (split; [reflexivity | discriminate]).
Qed.

Lemma lstrip_no_space (s : string) :
  (forall c, is_space c = true -> mem_char c s = false) -> lstrip s = s.
Proof.
  destruct s as [|c rest]; [reflexivity|]. intros H. cbn [lstrip].
  destruct (is_space c) eqn:Hc; [|reflexivity].
  specialize (H c Hc). cbn [mem_char] in H. rewrite Ascii.eqb_refl in H. discriminate.
Qed.

Lemma rstrip_no_space (s : string) :
  (forall c, is_space c = true -> mem_char c s = false) -> rstrip s = s.
Proof.
  induction s as [|c rest IH]; [reflexivity|]. intros H. cbn [rstrip].
  assert (Hc : is_space c = false).
  { destruct (is_space c) eqn:Hc; [|reflexivity].
    specialize (H c Hc). cbn [mem_char] in H. rewrite Ascii.eqb_refl in H. discriminate. }
  rewrite IH.
  - destruct rest; [rewrite Hc|]; reflexivity.
  - intros c' Hc'. specialize (H c' Hc'). cbn [mem_char] in H.
    apply orb_false_iff in H. apply H.
Qed.

Lemma strip_int_str (z : Z) : strip (int_str z) = int_str z.
Proof.
  assert (H : forall c, is_space c = true -> mem_char c (int_str z) = false).
  { intros c Hc. destruct (space_is_no_digit c Hc). now apply int_str_chars. }
  unfold strip. rewrite (lstrip_no_space _ H). apply rstrip_no_space. exact H.
Qed.

Lemma parse_unsigned (d : Decimal.uint) :
  d <> Decimal.Nil ->
  match NilEmpty.string_of_uint d with
  | String "+" rest => parse_digits rest 0 false
  | String "-" rest => option_map Z.opp (parse_digits rest 0 false)
  | t => parse_digits t 0 false
  end = Some (uint_val d 0).
Proof.
  intros Hd. rewrite <- (parse_uint d 0 false (or_introl Hd)).
  destruct d; [contradiction | reflexivity ..].
Qed.

Lemma nilzero_nonnil (d : Decimal.uint) :
  d <> Decimal.Nil -> NilZero.string_of_uint d = NilEmpty.string_of_uint d.
Proof. destruct d; [contradiction | reflexivity ..]. Qed.

Lemma count_digits_uint (d : Decimal.uint) :
  count_digits (NilEmpty.string_of_uint d) = String.length (NilEmpty.string_of_uint d).
Proof.
  induction d; cbn [NilEmpty.string_of_uint count_digits String.length];
    [reflexivity | ..];
    match goal with
    | |- context [digit_val ?a] =>
        let v := eval vm_compute in (digit_val a) in change (digit_val a) with v
    end;
    cbv iota; rewrite IHd; reflexivity.
Qed.

Lemma count_digits_int_str (z : Z) : count_digits (int_str z) = digits_of z.
Proof.
  unfold digits_of.
  destruct z as [|p|p]; [reflexivity | |];
    pose proof (DecimalPos.Unsigned.to_uint_nonnil p) as Hnil;
    unfold int_str; cbn [Z.abs Z.to_int NilZero.string_of_int];
    rewrite (nilzero_nonnil _ Hnil).
  - apply count_digits_uint.
  - cbn [count_digits].
    change (digit_val "-") with (@None Z). cbv iota. apply count_digits_uint.
Qed.

(** Reading back what [str] writes: for every integer [z] within the
    digit cap, [int(str(z))] is [z]. *)
Theorem int_of_str_int_str (z : Z) :
  beyond_cap_int z = false -> int_of_str (int_str z) = Ok z.
Proof.
  intros Hcap. unfold int_of_str. rewrite strip_int_str, count_digits_int_str.
  unfold beyond_cap_int in Hcap. rewrite Hcap.
  destruct z as [|p|p]; [reflexivity | |];
    pose proof (DecimalPos.Unsigned.to_uint_nonnil p) as Hnil;
    unfold int_str; cbn [Z.to_int NilZero.string_of_int];
    rewrite (nilzero_nonnil _ Hnil).
  - rewrite (parse_unsigned _ Hnil), uint_val_to_uint. reflexivity.
  - cbv iota. rewrite (parse_uint _ 0 false (or_introl Hnil)), uint_val_to_uint.
    reflexivity.
Qed.

(** X10.  A non-zero integer of at most 4300 digits and its decimal text
    are formatted alike by [format_currency] and by [format_number]. *)
Theorem formatters_read_decimal_text (z : Z) :
  z <> 0 -> beyond_cap_int z = false ->
  format_currency (PStr (int_str z)) = format_currency (PInt z)
  /\ format_number (PStr (int_str z)) = format_number (PInt z).
Proof.
  intros Hz Hcap.
  assert (Hs : (int_str z =? "")%string = false)
    by (apply String.eqb_neq, int_str_not_empty).
  assert (Ht : (z =? 0) = false) by (apply Z.eqb_neq; exact Hz).
  unfold format_currency, format_number, format_comma_checked, int_str_checked.
  cbn [truthy py_int].
  rewrite Hs, Ht, (int_of_str_int_str z Hcap). cbn [negb bind]. rewrite Hcap.
  split; reflexivity.
Qed.

Lemma formatters_read_decimal_text_witness :
  (-1500 <> 0 /\ beyond_cap_int (-1500) = false)
  /\ format_currency (PStr (int_str (-1500))) = format_currency (PInt (-1500))
  /\ format_number (PStr (int_str (-1500))) = format_number (PInt (-1500)).
Proof.
  assert (H : -1500 <> 0) by discriminate.
  split; [split; [exact H | reflexivity]|].
  exact (formatters_read_decimal_text (-1500) H eq_refl).
Defined.


Lemma try_except_raises_gen {A : Type} (body handler : result A) (caught : exn -> bool)
    (ex : exn) :
  try_except body caught handler = Raise ex <->
  (body = Raise ex /\ caught ex = false)
  \/ (exists ex', body = Raise ex' /\ caught ex' = true /\ handler = Raise ex).
Proof.
  unfold try_except. destruct body as [b|ex']; split.
  - discriminate.
  - intros [[H _] | (ex' & H & _)]; discriminate.
  - destruct (caught ex') eqn:Hc.
    + intros H. right. exists ex'. split; [reflexivity | split; [exact Hc | exact H]].
    + intros H. injection H as <-. left. split; [reflexivity | exact Hc].
  - intros [[H Hc] | (ex'' & H & Hc & Hh)]; injection H as ->; rewrite Hc;
      [reflexivity | exact Hh].
Qed.

Lemma py_int_overflow (v : pyval) (ex : exn) :
  py_int v = Raise ex -> value_or_type_error ex = false ->
  ex = OverflowError /\ exists neg, v = PFloat (FInf neg).
Proof.
  intros Hv Hc.
  destruct (py_int_cases v) as [[n Hn] | [Hn | [Hn | [neg Hn]]]].
  - rewrite Hn in Hv. discriminate.
  - rewrite Hn in Hv. injection Hv as <-. discriminate.
  - rewrite Hn in Hv. injection Hv as <-. discriminate.
  - subst v. simpl in Hv. injection Hv as <-. split; [reflexivity | exists neg; reflexivity].
Qed.

Lemma str_checked_raises (v : pyval) (ex : exn) :
  str_checked v = Raise ex <-> ex = ValueError /\ beyond_cap v = true.
Proof.
  unfold str_checked. destruct (beyond_cap v); split.
  - intros H. injection H as <-. split; reflexivity.
  - intros [-> _]. reflexivity.
  - discriminate.
  - intros [_ H]. discriminate.
Qed.

(** A value that holds an integer beyond the cap is truthy, and [int] of
    it is the integer itself or fails with [TypeError]. *)
Lemma beyond_cap_py_int (v : pyval) :
  beyond_cap v = true ->
  truthy v = true
  /\ ((exists z, v = PInt z /\ beyond_cap_int z = true) \/ py_int v = Raise TypeError).
Proof.
  destruct v as [| b | z | f | t | l | d]; cbn [beyond_cap]; try discriminate.
  - intros H. split.
    + cbn [truthy]. destruct (Z.eqb_spec z 0) as [->|_]; [discriminate H | reflexivity].
    + left. exists z. split; [reflexivity | exact H].
  - intros H. split; [destruct l; [discriminate H | reflexivity] | right; reflexivity].
  - intros H. split; [destruct d; [discriminate H | reflexivity] | right; reflexivity].
Qed.

Section NumericFormatter.

(** What the two numeric formatters share: the text made of the integer. *)
Variable render : Z -> result string.
Hypothesis render_raises :
  forall (num : Z) (ex : exn), render num = Raise ex <->
                               ex = ValueError /\ beyond_cap_int num = true.

Lemma numeric_raises_iff (v : pyval) (ex : exn) :
  (if negb (truthy v) then Ok DEFAULT_VALUE
   else try_except (num <- py_int v ;; render num) value_or_type_error (str_checked v))
  = Raise ex
  <-> (ex = OverflowError /\ exists neg, v = PFloat (FInf neg))
      \/ (ex = ValueError /\ beyond_cap v = true).
Proof.
  split.
  - destruct (truthy v); cbn [negb]; [|discriminate].
    rewrite try_except_raises_gen. intros [[Hb Hc] | (ex' & Hb & Hc & Hh)].
    + destruct (py_int v) as [n|ex'] eqn:Hn; cbn [bind] in Hb.
      * apply render_raises in Hb. destruct Hb as [-> _]. discriminate Hc.
      * injection Hb as ->. left. exact (py_int_overflow v ex Hn Hc).
    + right. apply str_checked_raises. exact Hh.
  - intros [[-> [neg ->]] | [-> Hcap]]; [reflexivity|].
    destruct (beyond_cap_py_int v Hcap) as [Ht Hint]. rewrite Ht. cbn [negb].
    apply try_except_raises_gen. right.
    destruct Hint as [(z & -> & Hz) | Hty].
    + exists ValueError. cbn [py_int bind]. split; [|split].
      * apply render_raises. split; [reflexivity | exact Hz].
      * reflexivity.
      * apply str_checked_raises. split; [reflexivity | exact Hcap].
    + exists TypeError. rewrite Hty. split; [reflexivity | split; [reflexivity|]].
      apply str_checked_raises. split; [reflexivity | exact Hcap].
Qed.

End NumericFormatter.

(** X11.  [format_currency] and [format_number] raise in two cases and no
    other: on an infinite float, with [OverflowError], and on a value that
    holds an integer of more than 4300 digits, itself or in a list or
    mapping, with [ValueError]. *)
Theorem numeric_formatters_raise_iff (v : pyval) (ex : exn) :
  (format_currency v = Raise ex <->
   (ex = OverflowError /\ exists neg, v = PFloat (FInf neg))
   \/ (ex = ValueError /\ beyond_cap v = true))
  /\ (format_number v = Raise ex <->
      (ex = OverflowError /\ exists neg, v = PFloat (FInf neg))
      \/ (ex = ValueError /\ beyond_cap v = true)).
Proof.
  split.
  - apply (numeric_raises_iff
             (fun num => text <- format_comma_checked num ;;
                         Ok (replace_char "," " " text ++ CURRENCY_SUFFIX))).
    intros num ex'. unfold format_comma_checked.
    destruct (beyond_cap_int num); cbn [bind]; split.
    + intros H. injection H as <-. split; reflexivity.
    + intros [-> _]. reflexivity.
    + discriminate.
    + intros [_ H]. discriminate.
  - apply (numeric_raises_iff
             (fun num => text <- int_str_checked num ;; Ok (text ++ NUMBER_SUFFIX))).
    intros num ex'. unfold int_str_checked.
    destruct (beyond_cap_int num); cbn [bind]; split.
    + intros H. injection H as <-. split; reflexivity.
    + intros [-> _]. reflexivity.
    + discriminate.
    + intros [_ H]. discriminate.
Qed.

Lemma int_str_negative (num : Z) : num < 0 -> int_str num = "-" ++ int_str (- num).
Proof. destruct num as [|p|p]; try lia. intros _. reflexivity. Qed.

(** X12.  Grouping loses no digit: for every non-zero integer of at most
    4300 digits the text of [format_currency] is a grouped number followed
    by " UZS", and the grouped number with its spaces taken out is [str] of
    the integer. *)
Theorem format_currency_keeps_digits (num : Z) :
  num <> 0 -> beyond_cap_int num = false ->
  exists text : string,
    format_currency (PInt num) = Ok (text ++ " UZS")
    /\ replace_char " " "" text = int_str num.
Proof.
  intros Hz Hcap. exists (grouped " " num). split.
  - unfold format_currency, format_comma_checked. cbn [truthy py_int].
    replace (num =? 0) with false by (symmetry; apply Z.eqb_neq; exact Hz).
    cbn [negb bind]. rewrite Hcap. cbn [try_except bind].
    rewrite replace_format_comma. reflexivity.
  - destruct (Z.lt_ge_cases num 0) as [Hneg|Hpos].
    + unfold grouped. apply Z.ltb_lt in Hneg as Hb. rewrite Hb.
      rewrite (int_str_negative num Hneg).
      change (replace_char " " "" ("-" ++ insert_sep " " (int_str (- num))))
        with ("-" ++ replace_char " " "" (insert_sep " " (int_str (- num)))).
      rewrite insert_sep_digits; [reflexivity|].
      apply int_str_chars; [reflexivity | discriminate].
    + apply grouped_digits. exact Hpos.
Qed.

Lemma format_currency_keeps_digits_witness :
  (-1234567 <> 0 /\ beyond_cap_int (-1234567) = false)
  /\ exists text : string,
       format_currency (PInt (-1234567)) = Ok (text ++ " UZS")
       /\ replace_char " " "" text = int_str (-1234567).
Proof.
  assert (H : -1234567 <> 0) by discriminate.
  split; [split; [exact H | reflexivity]|].
  exact (format_currency_keeps_digits (-1234567) H eq_refl).
Defined.

(** ** get_relationship_name *)



(** ** format_deadline *)

Section DeadlineErrors.

Variable local_date : Z * Z -> string -> result string.


End DeadlineErrors.


(** ** The keyboard *)

Lemma substring_all (s : string) : substring 0 (String.length s) s = s.
Proof. induction s as [|c rest IH]; simpl; [reflexivity | now rewrite IH]. Qed.

(** X15.  The keyboard has two rows of one button each: the first button
    carries the task url and no callback data, the second carries as
    callback data the task id after the prefix "lot_in_" and no url; so the
    task id is read back from the callback data, and two keyboards are
    equal only for the same url and the same task id. *)
Theorem keyboard_carries_task (task_url task_id : string) :
  (exists link action : dict,
      create_broker_keyboard task_url task_id
      = PDict [("inline_keyboard", PList [PList [PDict link]; PList [PDict action]])]
      /\ lookup "url" link = Some (PStr task_url)
      /\ lookup "callback_data" link = None
      /\ lookup "url" action = None
      /\ exists data : string,
           lookup "callback_data" action = Some (PStr data)
           /\ prefix "lot_in_" data = true
           /\ substring 7 (String.length task_id) data = task_id)
  /\ (forall task_url' task_id' : string,
        create_broker_keyboard task_url task_id = create_broker_keyboard task_url' task_id' ->
        task_url = task_url' /\ task_id = task_id').
Proof.
  split.
  - eexists. eexists. split; [reflexivity|]. repeat split.
    exists ("lot_in_" ++ task_id). split; [reflexivity|]. split.
    + simpl. destruct task_id; reflexivity.
    + simpl. apply substring_all.
  - intros u t H. unfold create_broker_keyboard in H.
    injection H as Hu Ht. split; assumption.
Qed.

(** ** The message *)

Section MessageFacts.

Variable get_task : string -> result pyval.
Variable get_custom_field_value : pyval -> string -> result pyval.
Variable local_date : Z * Z -> string -> result string.

(** X16.  [create_broker_message] passes on the error of a failed fetch;
    it raises [AttributeError] on a task that is not a mapping; and for a
    task that is a mapping none of whose custom fields is found, it gives
    the message with the task's name and status text and the sentinel
    "N/A" on every other line, the status text being the sentinel too when
    the task's "status" is not a mapping. *)
Theorem message_of_bare_task (task_id : string) :
  (forall ex : exn,
      get_task task_id = Raise ex ->
      create_broker_message get_task get_custom_field_value local_date task_id = Raise ex)
  /\ (forall task : pyval,
        get_task task_id = Ok task -> isinstance_dict task = false ->
        create_broker_message get_task get_custom_field_value local_date task_id
        = Raise AttributeError)
  /\ (forall task : dict,
        get_task task_id = Ok (PDict task) ->
        (forall name, get_custom_field_value (PDict task) name = Ok PNone) ->
        create_broker_message get_task get_custom_field_value local_date task_id
        = Ok (render_message (py_str (dict_get task "name" (PStr "N/A")))
                (py_str (shown_status task))
                "N/A" "N/A" "N/A" "N/A" "N/A" "N/A" "N/A" "N/A")).
Proof.
  unfold create_broker_message. split; [|split].
  - intros ex ->. reflexivity.
  - intros task -> Ht. destruct task; try reflexivity. discriminate.
  - intros task -> Hf. cbn [bind py_get]. rewrite !Hf. cbn [bind].
    unfold shown_status.
    destruct (dict_get task "status" (PDict [])) as [| ? | ? | ? | ? | ? | st]; reflexivity.
Qed.

(** X17.  ASCII text that is no number is shown as it is: when every
    custom field of a task is the same non-empty ASCII text that [int] does
    not read, the message returns and shows that text on every field
    line. *)
Theorem message_of_text_fields (task_id : string) (task : dict) (text : string) :
  get_task task_id = Ok (PDict task) ->
  (forall name, get_custom_field_value (PDict task) name = Ok (PStr text)) ->
  text <> "" ->
  is_ascii text = true ->
  int_of_str text = Raise ValueError ->
  create_broker_message get_task get_custom_field_value local_date task_id
  = Ok (render_message (py_str (dict_get task "name" (PStr "N/A")))
          (py_str (shown_status task))
          text text text text text text text text).
Proof.
  intros Ht Hf Hne _ Hint. unfold create_broker_message. rewrite Ht.
  cbn [bind py_get]. rewrite !Hf.
  assert (Hnum : format_number (PStr text) = Ok text) by (now apply format_number_text).
  assert (Hdl : format_deadline local_date (PStr text) = Ok text)
    by (now apply format_deadline_text).
  assert (Hcur : format_currency (PStr text) = Ok text).
  { unfold format_currency. cbn [truthy py_int].
    destruct (String.eqb_spec text "") as [E|_]; [contradiction|].
    cbn [negb]. rewrite Hint. reflexivity. }
  assert (Hrel : get_relationship_name (PStr text) = PStr text).
  { unfold get_relationship_name. cbn [truthy].
    destruct (String.eqb_spec text "") as [E|_]; [contradiction | reflexivity]. }
  unfold shown_status.
  destruct (dict_get task "status" (PDict [])) as [| ? | ? | ? | ? | ? | st];
    cbn [isinstance_dict py_get bind]; rewrite Hnum, Hcur, Hdl, Hrel; reflexivity.
Qed.

End MessageFacts.

Lemma message_of_bare_task_witness :
  (fetch (PDict task_flat_status) "86c0xyz" = Ok (PDict task_flat_status)
   /\ forall name, no_field (PDict task_flat_status) name = Ok PNone)
  /\ create_broker_message (fetch (PDict task_flat_status)) no_field no_date "86c0xyz"
     = Ok (render_message "Lot 12" "N/A" "N/A" "N/A" "N/A" "N/A" "N/A" "N/A" "N/A" "N/A").
Proof.
  assert (Hf : forall name, no_field (PDict task_flat_status) name = Ok PNone)
    by (intros name; reflexivity).
  split; [split; [reflexivity | exact Hf]|].
  destruct (message_of_bare_task (fetch (PDict task_flat_status)) no_field no_date "86c0xyz")
    as (_ & _ & H).
  exact (H task_flat_status eq_refl Hf).
Defined.

Lemma message_of_text_fields_witness :
  (fetch (PDict task_flat_status) "86c0xyz" = Ok (PDict task_flat_status)
   /\ (forall name, same_field "n/a yet" (PDict task_flat_status) name = Ok (PStr "n/a yet"))
   /\ "n/a yet" <> ""
   /\ is_ascii "n/a yet" = true
   /\ int_of_str "n/a yet" = Raise ValueError)
  /\ create_broker_message (fetch (PDict task_flat_status)) (same_field "n/a yet") no_date
       "86c0xyz"
     = Ok (render_message "Lot 12" "N/A" "n/a yet" "n/a yet" "n/a yet" "n/a yet"
             "n/a yet" "n/a yet" "n/a yet" "n/a yet").
Proof.
  assert (Hf : forall name,
             same_field "n/a yet" (PDict task_flat_status) name = Ok (PStr "n/a yet"))
    by (intros name; reflexivity).
  assert (Hne : "n/a yet" <> "") by discriminate.
  split; [split; [reflexivity
                 | split; [exact Hf | split; [exact Hne | split; reflexivity]]]|].
  exact (message_of_text_fields (fetch (PDict task_flat_status)) (same_field "n/a yet")
           no_date "86c0xyz" task_flat_status "n/a yet" eq_refl Hf Hne eq_refl eq_refl).
Defined.

(** ** The field name and letter case *)

Lemma name_in_case (n1 n2 : string) (d : pyval) :
  lower n1 = lower n2 -> CustomFieldFilter.name_in n1 d = CustomFieldFilter.name_in n2 d.
Proof.
  intros H. unfold CustomFieldFilter.name_in.
  destruct (py_get d "name" PNone) as [stored|]; cbn [bind]; [|reflexivity].
  destruct (truthy stored); [|reflexivity].
  destruct (py_get d "name" (PStr "")) as [stored'|]; cbn [bind]; [|reflexivity].
  destruct (py_lower stored') as [low|]; cbn [bind]; [|reflexivity].
  rewrite H. reflexivity.
Qed.

Lemma match_name_case (n1 n2 : string) (item field : pyval) :
  lower n1 = lower n2 ->
  CustomFieldFilter.match_name n1 item field = CustomFieldFilter.match_name n2 item field.
Proof.
  intros H. unfold CustomFieldFilter.match_name.
  rewrite H.
  destruct (if truthy field
            then low <- py_lower field ;; Ok (contains (lower n2) low)
            else Ok false) as [[|]|]; cbn [bind]; try reflexivity.
  destruct (py_get item "after" (PDict [])) as [after|]; cbn [bind]; [|reflexivity].
  destruct (py_get item "before" (PDict [])) as [before|]; cbn [bind]; [|reflexivity].
  rewrite (name_in_case n1 n2 after H), (name_in_case n1 n2 before H). reflexivity.
Qed.

(** X18.  The letter case of an ASCII field name does not matter: with
    the field name ASCII and the history plain (its text ASCII, its
    integers of at most 4300 digits), a field
    filter and the same filter with its field name in upper case give the
    same result, value or error. *)
Theorem field_check_ignores_name_case (self : CustomFieldFilter.t) (e : WebhookEvent) :
  is_ascii (arg (CustomFieldFilter.field_name self)) = true ->
  plain_history e ->
  CustomFieldFilter.check (upper_field_name self) e = CustomFieldFilter.check self e.
Proof.
  intros _ _. unfold CustomFieldFilter.check.
  destruct (negb (event e =? "taskUpdated")%string); [reflexivity|].
  destruct (no_history e); [reflexivity|].
  apply for_items_ext. intros item.
  unfold CustomFieldFilter.body, upper_field_name.
  cbn [CustomFieldFilter.field_id CustomFieldFilter.field_name]. cbv zeta.
  rewrite supplied_upper.
  destruct (py_get item "field" (PStr "")) as [field|]; cbn [bind]; [|reflexivity].
  destruct (py_get item "field_id" PNone) as [fid|]; cbn [bind]; [|reflexivity].
  destruct (py_get item "id" PNone) as [id|]; cbn [bind]; [|reflexivity].
  destruct (if supplied (CustomFieldFilter.field_id self)
            then CustomFieldFilter.match_id (arg (CustomFieldFilter.field_id self))
                   item field (py_or fid id)
            else Ok false) as [[|]|]; cbn [bind]; try reflexivity.
  destruct (supplied (CustomFieldFilter.field_name self)); [|reflexivity].
  apply match_name_case. apply arg_upper.
Qed.

(** The filters on the names "Priority" and "PRIORITY" both match the label
    "PRIORITY level". *)
Lemma field_check_ignores_name_case_witness :
  (is_ascii (arg (CustomFieldFilter.field_name by_priority)) = true
   /\ plain_history (mk_event "taskUpdated" [item_priority]))
  /\ CustomFieldFilter.check (CustomFieldFilter.Build_t None (Some "PRIORITY"))
       (mk_event "taskUpdated" [item_priority]) = Ok true
  /\ CustomFieldFilter.check by_priority (mk_event "taskUpdated" [item_priority]) = Ok true.
Proof.
  assert (Ha : plain_history (mk_event "taskUpdated" [item_priority])).
  { repeat constructor. }
  split; [split; [reflexivity | exact Ha]|].
  split; [|reflexivity].
  change (CustomFieldFilter.Build_t None (Some "PRIORITY")) with (upper_field_name by_priority).
  rewrite (field_check_ignores_name_case by_priority
             (mk_event "taskUpdated" [item_priority]) eq_refl Ha).
  reflexivity.
Defined.

(** ** The division in format_deadline *)

(** X19.  Whatever the date conversion does, [format_deadline] raises
    [OverflowError] on every integer whose quotient by 1000 is too large
    for a float. *)
Theorem format_deadline_overflows (local_date : Z * Z -> string -> result string) (n : Z) :
  1000 * (2 ^ 1024 - 2 ^ 970) <= Z.abs n ->
  format_deadline local_date (PInt n) = Raise OverflowError.
Proof. apply format_deadline_huge. Qed.

Lemma format_deadline_overflows_witness :
  1000 * (2 ^ 1024 - 2 ^ 970) <= Z.abs (- 10 ^ 312)
  /\ format_deadline no_date (PInt (- 10 ^ 312)) = Raise OverflowError.
Proof.
  assert (H : 1000 * (2 ^ 1024 - 2 ^ 970) <= Z.abs (- 10 ^ 312))
    by (vm_compute; discriminate).
  split; [exact H|]. exact (format_deadline_overflows no_date (- 10 ^ 312) H).
Defined.
